(** * AI trading journal (src/index.tsx): a shallow embedding

    The program is a single React component tree.  Its logic lives in a
    handful of event handlers of [App] and [TradeForm]: they read the
    component state, talk to the browser (alerts, local storage, the clock)
    and to a hosted language model, and write the state back.

    The embedding keeps that shape:
    - JavaScript values are the inductive [value]; objects are finite maps
      from property names to values;
    - every handler is a function from the component state to the new state
      and the list of effects it performed, in order;
    - what the outside world answers (the model's reply, the stored blob, the
      clock) is an argument of the handler.

    Numbers are exact rationals with [NaN] and the two infinities added:
    rounding to the nearest double is not modelled. *)

From Stdlib Require Import Ascii String QArith.
From stdpp Require Import base list strings gmap pretty.

#[local] Set Warnings "-register-all".

(** ** JavaScript values *)

Inductive number :=
  | NaN
  | Infinity (negative : bool)
  | Fin (q : Q).

Inductive value :=
  | VUndef
  | VNull
  | VBool (b : bool)
  | VNum (n : number)
  | VStr (s : string)
  | VArr (l : list value)
  | VObj (o : gmap string value).

(** ToBoolean. *)
Definition number_truthy (n : number) : bool :=
  match n with
  | NaN => false
  | Infinity _ => true
  | Fin q => negb (Qeq_bool q 0)
  end.

Definition string_truthy (s : string) : bool :=
  match s with
  | EmptyString => false
  | String _ _ => true
  end.

Definition truthy (v : value) : bool :=
  match v with
  | VUndef | VNull => false
  | VBool b => b
  | VNum n => number_truthy n
  | VStr s => string_truthy s
  | VArr _ | VObj _ => true
  end.

(** [x || 0] on numbers. *)
Definition or_zero (n : number) : number :=
  if number_truthy n then n else Fin 0.

(** Property read [v.k] for a property name [k] that is an identifier of the
    program ([date], [emotion], [metrics], [labels], ...): never [length],
    an array index or a name found on a prototype.  [None] is the TypeError
    thrown on [undefined] and [null]; a missing property reads as
    [undefined]. *)
Definition prop (v : value) (k : string) : option value :=
  match v with
  | VUndef | VNull => None
  | VObj o => Some (default VUndef (o !! k))
  | VBool _ | VNum _ | VStr _ | VArr _ => Some VUndef
  end.

(** The one-character strings of a string, as [s[0]], [s[1]], ... *)
Fixpoint chars (s : string) : list value :=
  match s with
  | EmptyString => []
  | String c r => VStr (String c EmptyString) :: chars r
  end.

(** Indexed read [v[i]]. *)
Definition index (v : value) (i : nat) : option value :=
  match v with
  | VUndef | VNull => None
  | VArr l => Some (default VUndef (l !! i))
  | VStr s => Some (default VUndef (chars s !! i))
  | VObj o => Some (default VUndef (o !! pretty i))
  | VBool _ | VNum _ => Some VUndef
  end.

(** Own enumerable properties copied by an object spread [{...v}]. *)
Definition indexed (l : list value) : gmap string value :=
  list_to_map (imap (λ i x, (pretty i, x)) l).

Definition spread (v : value) : gmap string value :=
  match v with
  | VObj o => o
  | VArr l => indexed l
  | VStr s => indexed (chars s)
  | VUndef | VNull | VBool _ | VNum _ => ∅
  end.

(** ToString(v), as a template literal or [join] applies it, returns for
    every value but an object with a property [toString] of its own, which
    in data, parsed or built from literals, is no function (the conversion
    then ends in a TypeError); an array is converted element by element.
    What string comes out is not modelled. *)
Fixpoint converts (v : value) : bool :=
  match v with
  | VArr l =>
      (fix all (l : list value) : bool :=
         match l with
         | [] => true
         | x :: r => converts x && all r
         end) l
  | VObj o =>
      match o !! "toString" with
      | Some _ => false
      | None => true
      end
  | VUndef | VNull | VBool _ | VNum _ | VStr _ => true
  end.

(** A value written into a template literal. *)
Definition interpolate (v : value) : option value :=
  if converts v then Some v else None.

(** ** parseFloat

    The ECMAScript builtin: leading white space is skipped, the longest
    prefix that is a decimal literal is read, anything after it is ignored,
    and [NaN] is returned when there is no such prefix.  Strings are byte
    strings here, so the white space is the ASCII one.  The value is the
    exact rational the literal denotes: it is the number the program stores
    whenever that rational is a double, as every integer up to 2^53 in
    absolute value is. *)

Definition is_space (c : ascii) : bool :=
  let n := nat_of_ascii c in
  (n =? 32)%nat || ((9 <=? n)%nat && (n <=? 13)%nat).

Definition digit_of (c : ascii) : option N :=
  let n := N_of_ascii c in
  if ((48 <=? n) && (n <=? 57))%N then Some (n - 48)%N else None.

Fixpoint skip_spaces (s : string) : string :=
  match s with
  | String c r => if is_space c then skip_spaces r else s
  | EmptyString => s
  end.

(** Reads a run of digits: the number they extend [acc] to, how many were
    read, and what follows. *)
Fixpoint read_digits (s : string) (acc : N) (n : nat) : N * nat * string :=
  match s with
  | String c r =>
      match digit_of c with
      | Some d => read_digits r (10 * acc + d)%N (S n)
      | None => (acc, n, s)
      end
  | EmptyString => (acc, n, s)
  end.

Definition read_sign (s : string) : bool * string :=
  match s with
  | String "-" r => (true, r)
  | String "+" r => (false, r)
  | _ => (false, s)
  end.

(** The exponent part, 0 when there is none or it has no digit. *)
Definition read_exponent (s : string) : Z :=
  match s with
  | String c r =>
      if (Ascii.eqb c "e" || Ascii.eqb c "E")%char then
        let '(neg, r') := read_sign r in
        let '(e, n, _) := read_digits r' 0%N 0%nat in
        match n with
        | O => 0%Z
        | S _ => if neg then (- Z.of_N e)%Z else Z.of_N e
        end
      else 0%Z
  | EmptyString => 0%Z
  end.

Definition scale10 (m : Z) (k : Z) : Q :=
  if (0 <=? k)%Z then inject_Z (m * 10 ^ k) else m # Z.to_pos (10 ^ (- k)).

Definition parseFloat (s : string) : number :=
  let '(neg, s1) := read_sign (skip_spaces s) in
  if String.prefix "Infinity" s1 then Infinity neg
  else
    let '(ip, ni, s2) := read_digits s1 0%N 0%nat in
    let '(m, nf, s3) :=
      match s2 with
      | String "." r => read_digits r ip 0%nat
      | _ => (ip, 0%nat, s2)
      end in
    match (ni + nf)%nat with
    | O => NaN
    | S _ =>
        let q := scale10 (Z.of_N m) (read_exponent s3 - Z.of_nat nf) in
        Fin (if neg then - q else q)
    end.

(** ** The data model (interface [Trade]) *)

Inductive Position := long | short.
Inductive Status := win | loss | breakeven.
Inductive Session := asia | london | new_york.
Inductive Bias := bullish | bearish | ranging.
Inductive NewsImpact := high | medium | low | none.
Inductive Grade := A | B | C | D | F.

Definition Position_str (p : Position) : string :=
  match p with long => "long" | short => "short" end.
Definition Status_str (s : Status) : string :=
  match s with win => "win" | loss => "loss" | breakeven => "breakeven" end.
Definition Session_str (s : Session) : string :=
  match s with asia => "asia" | london => "london" | new_york => "new york" end.
Definition Bias_str (b : Bias) : string :=
  match b with bullish => "bullish" | bearish => "bearish" | ranging => "ranging" end.
Definition NewsImpact_str (n : NewsImpact) : string :=
  match n with high => "high" | medium => "medium" | low => "low" | none => "none" end.
Definition Grade_str (g : Grade) : string :=
  match g with A => "A" | B => "B" | C => "C" | D => "D" | F => "F" end.

(** The declared type of a journal entry.  Amounts are in Rupiah. *)
Module Trade.
Record t := {
  id : string;
  date : string;
  pair : string;
  lotSize : Q;
  position : Position;
  status : Status;
  pnl : Q;
  commission : Q;
  session : Session;
  bias : Bias;
  confirmSmt : bool;
  newsImpact : NewsImpact;
  emotion : string;
  grade : Grade;
  notes : string;
}.
End Trade.

(** The state of [TradeForm]: the text inputs hold strings, each select holds
    one of its options. *)
Module Form.
Record t := {
  date : string;
  pair : string;
  lotSize : string;
  position : Position;
  status : Status;
  pnl : string;
  commission : string;
  session : Session;
  bias : Bias;
  confirmSmt : bool;
  newsImpact : NewsImpact;
  emotion : string;
  grade : Grade;
  notes : string;
}.
End Form.

(** [today] is [new Date().toISOString().substring(0, 10)]. *)
Definition initialFormState (today : string) : Form.t :=
  {| Form.date := today; Form.pair := ""; Form.lotSize := "";
     Form.position := long; Form.status := win; Form.pnl := "";
     Form.commission := ""; Form.session := london; Form.bias := ranging;
     Form.confirmSmt := false; Form.newsImpact := low; Form.emotion := "";
     Form.grade := C; Form.notes := "" |}.

(** The form state as the object it is at run time. *)
Definition form_object (form : Form.t) : gmap string value :=
  list_to_map [
    ("date", VStr (Form.date form));
    ("pair", VStr (Form.pair form));
    ("lotSize", VStr (Form.lotSize form));
    ("position", VStr (Position_str (Form.position form)));
    ("status", VStr (Status_str (Form.status form)));
    ("pnl", VStr (Form.pnl form));
    ("commission", VStr (Form.commission form));
    ("session", VStr (Session_str (Form.session form)));
    ("bias", VStr (Bias_str (Form.bias form)));
    ("confirmSmt", VBool (Form.confirmSmt form));
    ("newsImpact", VStr (NewsImpact_str (Form.newsImpact form)));
    ("emotion", VStr (Form.emotion form));
    ("grade", VStr (Grade_str (Form.grade form)));
    ("notes", VStr (Form.notes form))
  ].

(** ** Component state and effects *)

Record State := {
  trades : list value;
  loading : bool;
  loadingMessage : string;
  analysisResult : value;
  showIntro : bool;
}.

Definition initialState : State :=
  {| trades := []; loading := false;
     loadingMessage := "Initializing Journal...";
     analysisResult := VNull; showIntro := true |}.

Definition setTrades (ts : list value) (st : State) : State :=
  {| trades := ts; loading := loading st;
     loadingMessage := loadingMessage st;
     analysisResult := analysisResult st; showIntro := showIntro st |}.

Definition setLoading (b : bool) (st : State) : State :=
  {| trades := trades st; loading := b;
     loadingMessage := loadingMessage st;
     analysisResult := analysisResult st; showIntro := showIntro st |}.

Definition setLoadingMessage (m : string) (st : State) : State :=
  {| trades := trades st; loading := loading st;
     loadingMessage := m;
     analysisResult := analysisResult st; showIntro := showIntro st |}.

Definition setAnalysisResult (r : value) (st : State) : State :=
  {| trades := trades st; loading := loading st;
     loadingMessage := loadingMessage st;
     analysisResult := r; showIntro := showIntro st |}.

(** What goes into a prompt: the sampled rows of an import, or, for an
    analysis, the values converted and joined into each CSV line (what text
    the conversion gives, and so where its commas fall, is not modelled). *)
Inductive Request :=
  | ImportRequest (dataSample : list value)
  | AnalysisRequest (tradesAsText : list (list value)).

(** A sheet is the row objects given to [json_to_sheet]; a workbook is the
    sheets appended to it, with their names. *)
Definition Sheet := list value.
Definition Workbook := list (string * Sheet).

Definition book_new : Workbook := [].
Definition book_append_sheet (wb : Workbook) (ws : Sheet) (name : string)
  : Workbook := wb ++ [(name, ws)].

Inductive Effect :=
  | Alert (msg : string)
  | ConsoleError (msg : string)
  | GenerateContent (req : Request)
  | WriteFile (wb : Workbook) (name : string)
  | UncaughtTypeError.

(** What [ai.models.generateContent] followed by [JSON.parse(response.text)]
    comes to: the call throws or rejects, the text is not JSON, or it parses
    to a value. *)
Inductive Reply :=
  | CallFails
  | Unparseable
  | Parsed (v : value).

(** What [localStorage.getItem] returns, together with what [JSON.parse]
    makes of the text ([None]: SyntaxError). *)
Inductive Stored :=
  | GetItemThrows
  | NoItem
  | Item (text : string) (parsed : option value).

(** ** Loading the journal ([useEffect] on mount, lines 69-76)

    A stored text that parses to something other than an array would put a
    non-array into a state declared as [Trade[]]; that outcome is kept apart
    as [IllTyped]. *)
Inductive Mounted :=
  | Ready (st : State)
  | IllTyped (v : value).

Definition loadSavedTrades (saved : Stored) (st : State)
  : Mounted * list Effect :=
  match saved with
  | GetItemThrows =>
      (Ready st, [ConsoleError "Failed to load trades from local storage:"])
  | NoItem => (Ready st, [])
  | Item savedTrades parsed =>
      if string_truthy savedTrades then
        match parsed with
        | None =>
            (Ready st,
             [ConsoleError "Failed to load trades from local storage:"])
        | Some (VArr l) => (Ready (setTrades l st), [])
        | Some v => (IllTyped v, [])
        end
      else (Ready st, [])
  end.

(** ** Creating trades *)

(** [addTrade] (lines 212-215); [now] is the reading of [Date.now()]. *)
Definition addTrade (trade : gmap string value) (now : Z) (st : State)
  : State :=
  let newTrade := VObj (<["id" := VStr (pretty now)]> trade) in
  setTrades (trades st ++ [newTrade]) st.

(** The argument [handleSubmit] gives to [addTrade] (lines 510-515). *)
Definition submitted (form : Form.t) : gmap string value :=
  <["commission" := VNum (or_zero (parseFloat (Form.commission form)))]>
    (<["pnl" := VNum (parseFloat (Form.pnl form))]>
       (<["lotSize" := VNum (or_zero (parseFloat (Form.lotSize form)))]>
          (form_object form))).

Definition accepted (form : Form.t) : bool :=
  string_truthy (Form.pair form) && string_truthy (Form.pnl form).

(** [handleSubmit] (lines 504-517): the new state of [App], the new state of
    the form, and the effects. *)
Definition handleSubmit (today : string) (form : Form.t) (now : Z)
  (st : State) : State * Form.t * list Effect :=
  if accepted form then
    (addTrade (submitted form) now st, initialFormState today, [])
  else (st, form, [Alert "Please fill at least Pair and PnL (Rp)."]).

Definition import_id (now : Z) (index : nat) : string :=
  "ai-import-" +:+ pretty now +:+ "-" +:+ pretty index.

(** The ids given to the elements of the model's answer (lines 267-270).
    [now index] is what [Date.now()] reads when the element at [index] gets
    its id. *)
Definition newTradesWithIds (now : nat → Z) (importedTrades : list value)
  : list value :=
  imap (λ index trade,
          VObj (<["id" := VStr (import_id (now index) index)]> (spread trade)))
       importedTrades.

(** [runAiImport] (lines 217-283).  [st] is the state the functional update
    of [setTrades] applies to. *)
Definition runAiImport (excelJson : option (list value)) (reply : Reply)
  (now : nat → Z) (st : State) : State * list Effect :=
  match excelJson with
  | None | Some [] =>
      (st, [Alert "The Excel file is empty or could not be read."])
  | Some rows =>
      let st1 :=
        setLoadingMessage "AI is interpreting your Excel file..."
          (setLoading true st) in
      let dataSample := take 100 rows in
      let call := GenerateContent (ImportRequest dataSample) in
      let failed :=
        (setLoading false st1,
         [call; ConsoleError "Error during AI Import:";
          Alert "An error occurred during AI import. Please check the console for details."]) in
      match reply with
      | CallFails | Unparseable => failed
      | Parsed (VArr ((_ :: _) as importedTrades)) =>
          let new := newTradesWithIds now importedTrades in
          (setLoading false (setTrades (trades st1 ++ new) st1),
           [call;
            Alert ("Successfully imported "
                   +:+ pretty (length new) +:+ " trades!")])
      | Parsed _ =>
          (setLoading false st1,
           [call;
            Alert "AI could not find any valid trades in the file. Please check the file content and try again."])
      end
  end.

(** ** Analysis ([runAiAnalysis], lines 362-432) *)

Definition dquote : ascii := ascii_of_nat 34.

(** The [replace] of line 374: every double quote is written twice. *)
Fixpoint replace_quotes (s : string) : string :=
  match s with
  | EmptyString => EmptyString
  | String c r =>
      if Ascii.eqb c dquote then String dquote (String dquote (replace_quotes r))
      else String c (replace_quotes r)
  end.

(** The cells of one CSV line (lines 373-375): the values the template
    literal converts to strings and joins with commas.  Reading a property
    of [null] throws, converting a cell can throw, and so does
    [t.emotion.replace] unless [t.emotion] is a string. *)
Definition csv_cells (t : value) : option (list value) :=
  date ← prop t "date" ≫= interpolate;
  pair ← prop t "pair" ≫= interpolate;
  lotSize ← prop t "lotSize" ≫= interpolate;
  position ← prop t "position" ≫= interpolate;
  status ← prop t "status" ≫= interpolate;
  pnl ← prop t "pnl" ≫= interpolate;
  commission ← prop t "commission" ≫= interpolate;
  session ← prop t "session" ≫= interpolate;
  bias ← prop t "bias" ≫= interpolate;
  confirmSmt ← prop t "confirmSmt" ≫= interpolate;
  newsImpact ← prop t "newsImpact" ≫= interpolate;
  emotion ← prop t "emotion";
  quoted ← match emotion with
           | VStr s => Some (VStr (replace_quotes s))
           | _ => None
           end;
  grade ← prop t "grade" ≫= interpolate;
  Some [date; pair; lotSize; position; status; pnl; commission; session;
        bias; confirmSmt; newsImpact; quoted; grade].

Definition tradesAsText (ts : list value) : option (list (list value)) :=
  mapM csv_cells ts.

Definition analysis_error : list Effect :=
  [ConsoleError "Error with AI Analysis:";
   Alert "An error occurred during AI analysis. Please check the console for details."].

Definition runAiAnalysis (reply : Reply) (st : State) : State * list Effect :=
  if (length (trades st) <? 3)%nat then
    (st, [Alert "Please add at least 3 trades to run AI analysis."])
  else
    let st1 :=
      setLoadingMessage "AI is analyzing your trades..."
        (setAnalysisResult VNull (setLoading true st)) in
    match tradesAsText (trades st) with
    | None => (setLoading false st1, analysis_error)
    | Some text =>
        let st2 := setLoadingMessage "Waiting for Gemini API..." st1 in
        let call := GenerateContent (AnalysisRequest text) in
        match reply with
        | Parsed resultJson =>
            (setLoading false (setAnalysisResult resultJson st2), [call])
        | CallFails | Unparseable =>
            (setLoading false st2, call :: analysis_error)
        end
    end.

(** ** Export ([handleDownload], lines 316-360) *)

(** An object literal with two properties. *)
Definition row (k1 : string) (v1 : value) (k2 : string) (v2 : value) : value :=
  VObj (<[k2 := v2]> (<[k1 := v1]> ∅)).

Definition summaryData (analysisResult : value) : option Sheet :=
  metrics ← prop analysisResult "metrics";
  totalNetPnl ← prop metrics "totalNetPnl";
  totalProfit ← prop metrics "totalProfit";
  totalLoss ← prop metrics "totalLoss";
  winRate ← prop metrics "winRate";
  totalTrades ← prop metrics "totalTrades";
  totalCommissions ← prop metrics "totalCommissions";
  mostProfitableSession ← prop metrics "mostProfitableSession";
  bestPerformingGrade ← prop metrics "bestPerformingGrade";
  Some [
    row "Metric" (VStr "Total Net PnL") "Value" totalNetPnl;
    row "Metric" (VStr "Total Profit") "Value" totalProfit;
    row "Metric" (VStr "Total Loss") "Value" totalLoss;
    row "Metric" (VStr "Win Rate") "Value" winRate;
    row "Metric" (VStr "Total Trades") "Value" totalTrades;
    row "Metric" (VStr "Total Commissions") "Value" totalCommissions;
    row "Metric" (VStr "Most Profitable Session") "Value" mostProfitableSession;
    row "Metric" (VStr "Best Performing Grade") "Value" bestPerformingGrade
  ].

(** [analysisResult[series].labels.map((label, index) =>
      ({ [labelCol]: label, [dataCol]: analysisResult[series].data[index] }))];
    [map] is there only when [labels] is an array. *)
Definition seriesData (analysisResult : value) (series labelCol dataCol : string)
  : option Sheet :=
  chart ← prop analysisResult series;
  labels ← prop chart "labels";
  match labels with
  | VArr ls =>
      mapM (λ cell, cell)
        (imap (λ i label,
                 chart' ← prop analysisResult series;
                 data ← prop chart' "data";
                 cell ← index data i;
                 Some (row labelCol label dataCol cell))
              ls)
  | _ => None
  end.

Definition workbook (st : State) : option Workbook :=
  let wb := book_new in
  summaryWs ← summaryData (analysisResult st);
  let wb := book_append_sheet wb summaryWs "Analysis Summary" in
  let wb := book_append_sheet wb (trades st) "All Trades" in
  cumulativePnlWs ←
    seriesData (analysisResult st) "cumulativePnlData" "Date" "Cumulative PnL";
  let wb := book_append_sheet wb cumulativePnlWs "Cumulative PnL Data" in
  outcomeWs ←
    seriesData (analysisResult st) "outcomeDistributionData" "Outcome" "Count";
  let wb := book_append_sheet wb outcomeWs "Outcome Distribution Data" in
  sessionWs ←
    seriesData (analysisResult st) "sessionPnlData" "Session" "Net PnL";
  let wb := book_append_sheet wb sessionWs "Session PnL Data" in
  gradeWs ← seriesData (analysisResult st) "gradePnlData" "Grade" "Net PnL";
  let wb := book_append_sheet wb gradeWs "Grade PnL Data" in
  Some wb.

Definition handleDownload (st : State) : list Effect :=
  if truthy (analysisResult st) then
    match workbook st with
    | Some wb => [WriteFile wb "AI_Trading_Analysis.xlsx"]
    | None => [UncaughtTypeError]
    end
  else [Alert "Please run the AI Analysis first to generate a report."].

(** ** The journal over time *)

(** The operations that create trades. *)
Inductive Op :=
  | Submit (today : string) (form : Form.t) (now : Z)
  | Import (excelJson : option (list value)) (reply : Reply) (now : nat → Z).

Definition step (st : State) (op : Op) : State :=
  match op with
  | Submit today form now => (handleSubmit today form now st).1.1
  | Import excelJson reply now => (runAiImport excelJson reply now st).1
  end.

Definition run (ops : list Op) (st : State) : State := foldl step st ops.

Definition trade_id (t : value) : option value := prop t "id".

Definition ids_unique (st : State) : Prop := NoDup (trade_id <$> trades st).

(** The readings of [Date.now()] an operation takes. *)
Definition readings (op : Op) : list Z :=
  match op with
  | Submit _ form now => if accepted form then [now] else []
  | Import (Some (_ :: _)) (Parsed (VArr l)) now => now <$> seq 0 (length l)
  | Import _ _ _ => []
  end.

(** No operation reads a time that an earlier operation has read. *)
Fixpoint clock_fresh (seen : list Z) (ops : list Op) : bool :=
  match ops with
  | [] => true
  | op :: rest =>
      forallb (λ t, negb (existsb (Z.eqb t) seen)) (readings op)
      && clock_fresh (readings op ++ seen) rest
  end.

(** The enum fields of a stored trade hold declared values. *)
Definition one_of (options : list string) (v : option value) : bool :=
  match v with
  | Some (VStr s) => bool_decide (s ∈ options)
  | _ => false
  end.

Definition valid_enums (t : value) : bool :=
  match t with
  | VObj o =>
      one_of (Position_str <$> [long; short]) (o !! "position")
      && one_of (Status_str <$> [win; loss; breakeven]) (o !! "status")
      && one_of (Session_str <$> [asia; london; new_york]) (o !! "session")
      && one_of (Bias_str <$> [bullish; bearish; ranging]) (o !! "bias")
      && one_of (NewsImpact_str <$> [high; medium; low; none]) (o !! "newsImpact")
      && one_of (Grade_str <$> [A; B; C; D; F]) (o !! "grade")
  | _ => false
  end.

(** ** Predicates used in the statements *)

(** The run enters the [catch] block of [runAiAnalysis]: building the prompt
    throws, the call fails, or the answer is not JSON. *)
Definition analysis_fails (reply : Reply) (st : State) : bool :=
  match tradesAsText (trades st), reply with
  | Some _, Parsed _ => false
  | _, _ => true
  end.

(** Nothing is stored under the journal key, the store cannot be read, or
    what is stored is not JSON. *)
Definition absent_or_corrupt (saved : Stored) : bool :=
  match saved with
  | GetItemThrows | NoItem | Item _ None => true
  | Item _ (Some _) => false
  end.

Fixpoint all_digits (s : string) : Prop :=
  match s with
  | EmptyString => True
  | String c r => is_Some (digit_of c) ∧ all_digits r
  end.

(** Every stored trade carries an id made from a clock reading in [seen]. *)
Definition stamped (seen : list Z) (t : value) : Prop :=
  ∃ now, now ∈ seen
    ∧ (trade_id t = Some (VStr (pretty now))
       ∨ ∃ i : nat, trade_id t = Some (VStr (import_id now i))).

Definition journal_inv (seen : list Z) (ts : list value) : Prop :=
  NoDup (trade_id <$> ts) ∧ Forall (stamped seen) ts.

(** ** Sample data *)

(** A filled form: pair and PnL typed in, lot size left empty, a commission
    that is not a number. *)
Definition sample_form : Form.t :=
  {| Form.date := "2024-01-01"; Form.pair := "EURUSD"; Form.lotSize := "";
     Form.position := long; Form.status := win; Form.pnl := "150000";
     Form.commission := "abc"; Form.session := london; Form.bias := ranging;
     Form.confirmSmt := false; Form.newsImpact := low;
     Form.emotion := "Confident"; Form.grade := C; Form.notes := "" |}.

(** One spreadsheet row and an answer of the model for it whose [position]
    is not a declared value and whose [status] is missing. *)
Definition sample_row : value :=
  VObj (list_to_map [("Symbol", VStr "EURUSD"); ("Side", VStr "buy");
                     ("Profit", VNum (Fin 150000))]).

Definition sample_answer_trade : value :=
  VObj (list_to_map [("date", VStr "2024-01-01");
                     ("pair", VStr "EURUSD");
                     ("position", VStr "buy");
                     ("pnl", VNum (Fin 150000))]).

Definition sample_answer : value := VArr [sample_answer_trade].

Definition noon : Z := 1700000000000.

(** Two submissions within the same millisecond. *)
Definition same_millisecond : list Op :=
  [Submit "2024-01-01" sample_form noon; Submit "2024-01-01" sample_form noon].

(** A submission, an import and a submission, one millisecond apart. *)
Definition sample_ops : list Op :=
  [Submit "2024-01-01" sample_form noon;
   Import (Some [sample_row]) (Parsed sample_answer) (λ _, noon + 1)%Z;
   Submit "2024-01-01" sample_form (noon + 2)%Z].

(** 101 rows, and the same with the last one changed. *)
Definition many_rows (last : value) : list value :=
  replicate 100 sample_row ++ [last].

(** An answer of the model to an analysis request. *)
Definition sample_result : value :=
  let chart labels data :=
    VObj (list_to_map [("labels", VArr labels); ("data", VArr data)]) in
  VObj (list_to_map [
    ("metrics", VObj (list_to_map [("totalNetPnl", VStr "Rp 33000");
                                   ("totalTrades", VNum (Fin 3))]));
    ("cumulativePnlData",
       chart [VStr "2024-01-01"] [VNum (Fin 90000)]);
    ("outcomeDistributionData",
       chart [VStr "Wins"; VStr "Losses"; VStr "Breakeven"]
             [VNum (Fin 1); VNum (Fin 1); VNum (Fin 1)]);
    ("sessionPnlData", chart [] []);
    ("gradePnlData", chart [] [])
  ]).

Definition analysed : State := setAnalysisResult sample_result initialState.

(** A state with three submitted trades and a result on display. *)
Definition failing_state : State :=
  setAnalysisResult sample_result
    (run [Submit "2024-01-01" sample_form noon;
          Submit "2024-01-01" sample_form (noon + 1)%Z;
          Submit "2024-01-01" sample_form (noon + 2)%Z] initialState).

(** ** Uploading a workbook ([handleFileUpload], lines 285-314)

    What the browser and the spreadsheet library make of the chosen file: no
    file was chosen, the reader fails, reading the workbook throws (with the
    message shown to the user), or the first sheet converts to rows. *)
Inductive Upload :=
  | NoFile
  | ReadFails
  | WorkbookThrows (errorMessage : string)
  | Rows (json : list value).

(** The new state, the effects, and whether the file input was cleared.
    [runAiImport] is started and not awaited; what it throws it catches
    itself. *)
Definition handleFileUpload (upload : Upload) (reply : Reply) (now : nat → Z)
  (st : State) : State * list Effect * bool :=
  match upload with
  | NoFile => (st, [], false)
  | ReadFails =>
      let st1 :=
        setLoadingMessage "Reading your Excel file..." (setLoading true st) in
      (setLoading false st1, [Alert "Error: Failed to read the file."], true)
  | WorkbookThrows errorMessage =>
      let st1 :=
        setLoadingMessage "Reading your Excel file..." (setLoading true st) in
      (setLoading false st1,
       [Alert ("Error processing Excel file: " +:+ errorMessage);
        ConsoleError "Error processing Excel file:"],
       true)
  | Rows json =>
      let st1 :=
        setLoadingMessage "Reading your Excel file..." (setLoading true st) in
      (runAiImport (Some json) reply now st1, true)
  end.

(** ** What is shown (lines 434-485 and 540-556) *)

(** The [disabled] attributes of the two buttons (lines 458 and 461). *)
Definition exportButtonDisabled (st : State) : bool :=
  negb (truthy (analysisResult st)).

Definition analysisButtonDisabled (st : State) : bool :=
  loading st || (length (trades st) <? 3)%nat.

(** [TradeList] (lines 540-556): the empty state, or one item per trade,
    newest first, each with its key [trade.id]. *)
Inductive Listing :=
  | EmptyState
  | Items (items : list (value * value)).

Definition TradeList (ts : list value) : option Listing :=
  match ts with
  | [] => Some EmptyState
  | _ :: _ =>
      Items <$> mapM (λ trade, key ← prop trade "id"; Some (key, trade))
                  (reverse ts)
  end.

(** ** The dashboard (lines 465-476 and 600-611) *)

(** What a card shows: a value of the result, or the string that
    [toString()] makes of one (the conversion itself is not modelled). *)
Inductive CardValue :=
  | Shown (v : value)
  | Stringified (v : value).

(** [v.toString()]: a TypeError on [null] and [undefined], and wherever the
    conversion to a string ends in one. *)
Definition toString (v : value) : option CardValue :=
  match v with
  | VUndef | VNull => None
  | VBool _ | VNum _ | VStr _ | VArr _ | VObj _ =>
      if converts v then Some (Stringified v) else None
  end.

(** [MetricsGrid]: the label, value and icon of each [MetricCard], in the
    order they are written. *)
Definition MetricsGrid (metrics : value)
  : option (list (string * CardValue * string)) :=
  totalNetPnl ← prop metrics "totalNetPnl";
  winRate ← prop metrics "winRate";
  totalProfit ← prop metrics "totalProfit";
  totalLoss ← prop metrics "totalLoss";
  mostProfitableSession ← prop metrics "mostProfitableSession";
  bestPerformingGrade ← prop metrics "bestPerformingGrade";
  totalTrades ← prop metrics "totalTrades";
  count ← toString totalTrades;
  totalCommissions ← prop metrics "totalCommissions";
  Some [
    ("Total Net PnL", Shown totalNetPnl, "account_balance_wallet");
    ("Win Rate", Shown winRate, "trending_up");
    ("Total Profit", Shown totalProfit, "add_card");
    ("Total Loss", Shown totalLoss, "credit_card_off");
    ("Best Session", Shown mostProfitableSession, "schedule");
    ("Best Grade", Shown bestPerformingGrade, "grade");
    ("Total Trades", count, "functions");
    ("Total Fees", Shown totalCommissions, "receipt_long")
  ].

(** The analysis section of [App]: not rendered without a result. *)
Inductive Dashboard :=
  | Hidden
  | Cards (cards : list (string * CardValue * string)).

Definition dashboard (st : State) : option Dashboard :=
  if truthy (analysisResult st) then
    metrics ← prop (analysisResult st) "metrics";
    Cards <$> MetricsGrid metrics
  else Some Hidden.

(** ** Drawing the charts ([useEffect] on the result, lines 92-210) *)

(** What the page offers: the chart library is loaded, and each canvas is
    mounted and gives a drawing context. *)
Record Page := {
  chartLibrary : bool;
  cumulativeCanvas : bool;
  outcomeCanvas : bool;
  sessionCanvas : bool;
  gradeCanvas : bool;
}.

Inductive ChartType := line | doughnut | bar.

(** The parts of a chart configuration that come from the result. *)
Record Chart := {
  chartType : ChartType;
  chartLabels : value;
  datasetLabel : string;
  chartData : value;
}.

(** One of the four blocks: nothing is drawn unless the series is truthy
    and the canvas is there. *)
Definition drawSeries (analysisResult : value) (series : string)
  (canvas : bool) (config : value → option Chart) : option (list Chart) :=
  chart ← prop analysisResult series;
  if truthy chart && canvas then
    chart' ← prop analysisResult series;
    c ← config chart';
    Some [c]
  else Some [].

(** The charts created, all earlier ones having been destroyed. *)
Definition drawCharts (page : Page) (analysisResult : value)
  : option (list Chart) :=
  if truthy analysisResult && chartLibrary page then
    cumulative ←
      drawSeries analysisResult "cumulativePnlData" (cumulativeCanvas page)
        (λ s, labels ← prop s "labels"; data ← prop s "data";
              Some {| chartType := line; chartLabels := labels;
                      datasetLabel := "Cumulative Net PnL (Rp)";
                      chartData := data |});
    outcome ←
      drawSeries analysisResult "outcomeDistributionData" (outcomeCanvas page)
        (λ s, data ← prop s "data";
              Some {| chartType := doughnut;
                      chartLabels :=
                        VArr [VStr "Wins"; VStr "Losses"; VStr "Breakeven"];
                      datasetLabel := "Trade Outcomes";
                      chartData := data |});
    session ←
      drawSeries analysisResult "sessionPnlData" (sessionCanvas page)
        (λ s, labels ← prop s "labels"; data ← prop s "data";
              Some {| chartType := bar; chartLabels := labels;
                      datasetLabel := "Net PnL by Session";
                      chartData := data |});
    grade ←
      drawSeries analysisResult "gradePnlData" (gradeCanvas page)
        (λ s, labels ← prop s "labels"; data ← prop s "data";
              Some {| chartType := bar; chartLabels := labels;
                      datasetLabel := "Net PnL by Grade";
                      chartData := data |});
    Some (cumulative ++ outcome ++ session ++ grade)
  else Some [].

(** ** More predicates used in the statements *)

Definition nullish (v : value) : bool :=
  match v with
  | VUndef | VNull => true
  | _ => false
  end.

(** A chart series the export can lay out: its [labels] are an array and,
    unless that array is empty, its [data] can be indexed. *)
Definition series_ok (r : value) (series : string) : bool :=
  match prop r series with
  | Some chart =>
      match prop chart "labels" with
      | Some (VArr []) => true
      | Some (VArr (_ :: _)) =>
          match prop chart "data" with
          | Some data => negb (nullish data)
          | None => false
          end
      | _ => false
      end
  | None => false
  end.

Definition exportable (r : value) : bool :=
  truthy r
  && match prop r "metrics" with
     | Some metrics => negb (nullish metrics)
     | None => false
     end
  && series_ok r "cumulativePnlData"
  && series_ok r "outcomeDistributionData"
  && series_ok r "sessionPnlData"
  && series_ok r "gradePnlData".

(** The fields of a stored trade have the types the interface [Trade]
    declares, and neither lot size nor commission is NaN. *)
Definition is_string (v : option value) : bool :=
  match v with Some (VStr _) => true | _ => false end.

Definition is_boolean (v : option value) : bool :=
  match v with Some (VBool _) => true | _ => false end.

Definition is_number (v : option value) : bool :=
  match v with Some (VNum _) => true | _ => false end.

Definition is_amount (v : option value) : bool :=
  match v with
  | Some (VNum NaN) => false
  | Some (VNum _) => true
  | _ => false
  end.

Definition well_typed (t : value) : bool :=
  match t with
  | VObj o =>
      is_string (o !! "id") && is_string (o !! "date")
      && is_string (o !! "pair") && is_amount (o !! "lotSize")
      && is_number (o !! "pnl") && is_amount (o !! "commission")
      && is_boolean (o !! "confirmSmt") && is_string (o !! "emotion")
      && is_string (o !! "notes") && valid_enums t
  | _ => false
  end.

Definition has_emotion (t : value) : bool := is_string (prop t "emotion").

(** Quotes come in pairs. *)
Fixpoint quotes_paired (s : string) : Prop :=
  match s with
  | EmptyString => True
  | String c r =>
      if Ascii.eqb c dquote then
        match r with
        | String c' r' => c' = dquote ∧ quotes_paired r'
        | EmptyString => False
        end
      else quotes_paired r
  end.

(** The trade has a string for its id. *)
Definition keyed (t : value) : Prop := ∃ s, prop t "id" = Some (VStr s).

(** A sequence of form submissions, each with its clock reading. *)
Definition submissions (today : string) (inputs : list (Form.t * Z))
  : list Op :=
  (λ input, Submit today input.1 input.2) <$> inputs.

(** A state with three submitted trades, nothing on display. *)
Definition three_trades : State :=
  run (submissions "2024-01-01"
         [(sample_form, noon); (sample_form, (noon + 1)%Z);
          (sample_form, (noon + 2)%Z)]) initialState.

(** The journal after one import whose answer has no emotion. *)
Definition imported_once : State :=
  run [Import (Some [sample_row]) (Parsed sample_answer) (λ _, noon)]
    initialState.

(** ** The amounts on display *)

(** An amount in the format the prompt asks for (lines 382-384): "Rp " and
    an integer in decimal.  It serves only to state a relation between the
    metrics of a result; the program itself never reads them. *)
Definition rupiah (v : value) : option Z :=
  match v with
  | VStr (String "R" (String "p" (String " " amount))) =>
      let '(neg, digits) := read_sign amount in
      match read_digits digits 0%N 0 with
      | (n, S _, EmptyString) =>
          Some (if neg then - Z.of_N n else Z.of_N n)%Z
      | _ => None
      end
  | _ => None
  end.

(** The three amounts of a result can be read and the net total is the
    profit minus the loss. *)
Definition net_is_profit_minus_loss (r : value) : bool :=
  match
    metrics ← prop r "metrics";
    net ← prop metrics "totalNetPnl" ≫= rupiah;
    profit ← prop metrics "totalProfit" ≫= rupiah;
    loss ← prop metrics "totalLoss" ≫= rupiah;
    Some (net =? profit - loss)%Z
  with
  | Some holds => holds
  | None => false
  end.

(** The scenario of section 8 of the specification, entered through the
    form: 100000 with commission 10000, -50000 with commission 5000, and 0
    with commission 2000. *)
Definition scenario_form (date pnl commission : string) (status : Status)
  (session : Session) (grade : Grade) : Form.t :=
  {| Form.date := date; Form.pair := "EURUSD"; Form.lotSize := "1";
     Form.position := long; Form.status := status; Form.pnl := pnl;
     Form.commission := commission; Form.session := session;
     Form.bias := ranging; Form.confirmSmt := false; Form.newsImpact := low;
     Form.emotion := ""; Form.grade := grade; Form.notes := "" |}.

Definition scenario_journal : State :=
  run (submissions "2024-01-04"
         [(scenario_form "2024-01-01" "100000" "10000" win london A, noon);
          (scenario_form "2024-01-02" "-50000" "5000" loss asia B,
           (noon + 1)%Z);
          (scenario_form "2024-01-03" "0" "2000" breakeven london A,
           (noon + 2)%Z)])
    initialState.

(** The answer that follows the prompt on that journal: net total
    100000 - 10000 - 50000 - 5000 + 0 - 2000, the sum of the positive pnl,
    and the sum of the negative pnl as a positive number. *)
Definition scenario_answer : value :=
  let chart labels data :=
    VObj (list_to_map [("labels", VArr labels); ("data", VArr data)]) in
  VObj (list_to_map [
    ("metrics",
       VObj (list_to_map [("totalNetPnl", VStr "Rp 33000");
                          ("totalProfit", VStr "Rp 100000");
                          ("totalLoss", VStr "Rp 50000");
                          ("winRate", VStr "33.33%");
                          ("totalTrades", VNum (Fin 3));
                          ("totalCommissions", VStr "Rp 17000");
                          ("mostProfitableSession", VStr "london");
                          ("bestPerformingGrade", VStr "A")]));
    ("cumulativePnlData",
       chart [VStr "2024-01-01"; VStr "2024-01-02"; VStr "2024-01-03"]
             [VNum (Fin 90000); VNum (Fin 35000); VNum (Fin 33000)]);
    ("outcomeDistributionData",
       chart [VStr "Wins"; VStr "Losses"; VStr "Breakeven"]
             [VNum (Fin 1); VNum (Fin 1); VNum (Fin 1)]);
    ("sessionPnlData",
       chart [VStr "asia"; VStr "london"; VStr "new york"]
             [VNum (Fin (-55000)); VNum (Fin 88000); VNum (Fin 0)]);
    ("gradePnlData",
       chart [VStr "A"; VStr "B"] [VNum (Fin 88000); VNum (Fin (-55000))])
  ]).

(** * Properties *)

(** ** The metrics of an analysis *)

Lemma runAiAnalysis_Parsed (v : value) (text : list (list value)) (st : State) :
  3 ≤ length (trades st) →
  tradesAsText (trades st) = Some text →
  analysisResult (runAiAnalysis (Parsed v) st).1 = v
  ∧ (runAiAnalysis (Parsed v) st).2 = [GenerateContent (AnalysisRequest text)].
Proof.
  intros Hlen Htext. unfold runAiAnalysis.
  destruct (Nat.ltb_spec (length (trades st)) 3) as [Hlt|_]; [lia|].
  by rewrite Htext.
Qed.

(** C1, as amended: the metrics an analysis run produces are those of the
    model's parsed answer, put on display unchanged; the program computes
    no total and checks no relation between them, so the net total is the
    profit minus the loss in the metrics produced exactly when it is so in
    the model's answer. *)
Theorem produced_metrics_are_the_answers (v : value) (st : State) :
  3 ≤ length (trades st) →
  is_Some (tradesAsText (trades st)) →
  analysisResult (runAiAnalysis (Parsed v) st).1 = v
  ∧ prop (analysisResult (runAiAnalysis (Parsed v) st).1) "metrics"
    = prop v "metrics"
  ∧ net_is_profit_minus_loss (analysisResult (runAiAnalysis (Parsed v) st).1)
    = net_is_profit_minus_loss v.
Proof.
  intros Hlen [text Htext].
  destruct (runAiAnalysis_Parsed v text st Hlen Htext) as [-> _]. done.
Qed.

Lemma produced_metrics_are_the_answers_witness :
  3 ≤ length (trades scenario_journal)
  ∧ is_Some (tradesAsText (trades scenario_journal))
  ∧ analysisResult (runAiAnalysis (Parsed scenario_answer) scenario_journal).1
    = scenario_answer.
Proof.
  assert (3 ≤ length (trades scenario_journal)) as Hlen by (simpl; lia).
  assert (is_Some (tradesAsText (trades scenario_journal))) as Htext.
  { destruct (tradesAsText (trades scenario_journal)) eqn:E; [by eexists|].
    by vm_compute in E. }
  split_and!; [exact Hlen|exact Htext|].
  apply (produced_metrics_are_the_answers scenario_answer scenario_journal
           Hlen Htext).
Defined.

(** C1, as stated, fails: on the scenario of the specification the model
    answers as the prompt asks, net total Rp 33000, profit Rp 100000, loss
    Rp 50000, and these are the metrics the run produces. *)
Lemma scenario_metrics_do_not_balance :
  net_is_profit_minus_loss
    (analysisResult (runAiAnalysis (Parsed scenario_answer) scenario_journal).1)
  = false
  ∧ prop scenario_answer "metrics"
      ≫= (λ metrics, prop metrics "totalNetPnl" ≫= rupiah) = Some 33000%Z
  ∧ prop scenario_answer "metrics"
      ≫= (λ metrics, prop metrics "totalProfit" ≫= rupiah) = Some 100000%Z
  ∧ prop scenario_answer "metrics"
      ≫= (λ metrics, prop metrics "totalLoss" ≫= rupiah) = Some 50000%Z.
Proof. split_and!; vm_compute; reflexivity. Qed.

(** ** Identifiers *)

Lemma pretty_N_char_digit x : is_Some (digit_of (pretty_N_char x)).
Proof. unfold pretty_N_char. repeat case_match; by eexists. Qed.

Lemma pretty_N_go_digits x s : all_digits s → all_digits (pretty_N_go x s).
Proof.
  revert s. induction (N.lt_wf_0 x) as [x _ IH]; intros s Hs.
  destruct (decide (x = 0%N)) as [->|Hx]; [by rewrite pretty_N_go_0|].
  rewrite pretty_N_go_step by lia.
  apply IH; [apply N.div_lt; lia|].
  split; [apply pretty_N_char_digit|done].
Qed.

Lemma pretty_N_digits (x : N) : all_digits (pretty x).
Proof.
  unfold pretty, pretty_N. case_decide.
  - split; [by eexists|done].
  - by apply pretty_N_go_digits.
Qed.

Lemma pretty_nat_digits (i : nat) : all_digits (pretty i).
Proof. apply pretty_N_digits. Qed.

(** A decimal index has no dash: the last dash of an import id is the one
    written before the index. *)
Lemma split_at_last_dash a1 a2 d1 d2 :
  all_digits d1 → all_digits d2 →
  a1 +:+ String "-" d1 = a2 +:+ String "-" d2 → a1 = a2 ∧ d1 = d2.
Proof.
  assert (∀ a d d', all_digits d → d ≠ a +:+ String "-" d') as no_dash.
  { intros a d; revert a; induction d as [|c d IH]; intros [|c' a] d' Hd E;
      unfold String.append in E; fold String.append in E; simplify_eq.
    - destruct Hd as [[? Hc] _]. by vm_compute in Hc.
    - destruct Hd as [_ Hd]. by eapply IH. }
  intros H1 H2. revert a2.
  induction a1 as [|c a1 IH]; intros [|c' a2] E; unfold String.append in E; fold String.append in E; simplify_eq.
  - done.
  - by destruct (no_dash a2 _ d2 H1).
  - by destruct (no_dash a1 _ d1 H2).
  - by destruct (IH a2) as [-> ->].
Qed.

Lemma import_id_inj t1 i1 t2 i2 :
  import_id t1 i1 = import_id t2 i2 → t1 = t2 ∧ i1 = i2.
Proof.
  unfold import_id. intros E.
  apply (inj (String.append _)) in E.
  apply split_at_last_dash in E as [Et Ei]; [|apply pretty_nat_digits..].
  by apply (inj pretty) in Et; apply (inj pretty) in Ei.
Qed.

Lemma pretty_Z_not_import (t : Z) (s : string) : pretty t ≠ String "a" s.
Proof.
  destruct t as [|p|p]; [done| |done].
  intros E. pose proof (pretty_N_digits (N.pos p)) as H.
  change (pretty (Z.pos p)) with (pretty (N.pos p)) in E.
  rewrite E in H. destruct H as [[? Hc] _]. by vm_compute in Hc.
Qed.

Lemma submit_id_not_import_id (t t' : Z) (i : nat) : pretty t ≠ import_id t' i.
Proof. apply pretty_Z_not_import. Qed.

Lemma stamped_mono seen seen' t :
  seen ⊆ seen' → stamped seen t → stamped seen' t.
Proof. intros Hsub (now & Hin & H). exists now. split; [by apply Hsub|done]. Qed.

Lemma fresh_spec seen rs :
  forallb (λ t, negb (existsb (Z.eqb t) seen)) rs = true →
  ∀ t, t ∈ rs → t ∉ seen.
Proof.
  rewrite forallb_forall. intros H t Hin Hseen.
  apply list_elem_of_In in Hin. specialize (H t Hin).
  apply negb_true_iff in H.
  assert (existsb (Z.eqb t) seen = true) as E; [|congruence].
  apply existsb_exists. exists t. split; [by apply list_elem_of_In|lia].
Qed.

Lemma Some_VStr_inj (a b : string) : Some (VStr a) = Some (VStr b) → a = b.
Proof. congruence. Qed.

Lemma trade_id_insert (o : gmap string value) (s : string) :
  trade_id (VObj (<["id" := VStr s]> o)) = Some (VStr s).
Proof. unfold trade_id, prop. by rewrite lookup_insert_eq. Qed.

Lemma trades_addTrade trade now st :
  trades (addTrade trade now st)
  = trades st ++ [VObj (<["id" := VStr (pretty now)]> trade)].
Proof. reflexivity. Qed.

Lemma addTrade_inv seen trade now st :
  journal_inv seen (trades st) → now ∉ seen →
  journal_inv (now :: seen) (trades (addTrade trade now st)).
Proof.
  intros [Hnd Hst] Hfresh. rewrite trades_addTrade. split.
  - rewrite fmap_app, list_fmap_singleton, trade_id_insert.
    apply NoDup_app. split_and!; [done| |apply NoDup_singleton].
    intros x Hx Hnew. apply list_elem_of_singleton in Hnew as ->.
    apply list_elem_of_fmap in Hx as (t & Ht & Hin).
    rewrite Forall_forall in Hst.
    destruct (Hst t Hin) as (now' & Hseen & [E|[i E]]); rewrite E in Ht;
      apply Some_VStr_inj in Ht.
    + apply (inj pretty) in Ht as ->. done.
    + by eapply submit_id_not_import_id.
  - apply Forall_app. split.
    + eapply Forall_impl; [done|]. intros t. apply stamped_mono. set_solver.
    + apply Forall_singleton. exists now. split; [set_solver|].
      left. apply trade_id_insert.
Qed.

Lemma newTradesWithIds_lookup now l i t :
  newTradesWithIds now l !! i = Some t →
  i < length l ∧ trade_id t = Some (VStr (import_id (now i) i)).
Proof.
  unfold newTradesWithIds. rewrite list_lookup_imap.
  destruct (l !! i) as [x|] eqn:E; simpl; [|done].
  intros [= <-]. split; [by eapply lookup_lt_Some|apply trade_id_insert].
Qed.

Lemma import_inv seen now l ts :
  journal_inv seen ts →
  (∀ t, t ∈ now <$> seq 0 (length l) → t ∉ seen) →
  journal_inv ((now <$> seq 0 (length l)) ++ seen)
    (ts ++ newTradesWithIds now l).
Proof.
  intros [Hnd Hst] Hfresh.
  assert (∀ i, i < length l → now i ∈ now <$> seq 0 (length l)) as Hread.
  { intros i Hi. apply list_elem_of_fmap. exists i. split; [done|].
    apply elem_of_seq. lia. }
  split.
  - rewrite fmap_app.
    apply NoDup_app. split_and!; [done| |].
    + intros x Hx Hnew.
      apply list_elem_of_fmap in Hx as (t & Ht & Hin).
      apply list_elem_of_fmap in Hnew as (t' & Ht' & Hin').
      apply list_elem_of_lookup in Hin' as [i Hi].
      apply newTradesWithIds_lookup in Hi as [Hi Eid].
      rewrite Forall_forall in Hst.
      destruct (Hst t Hin) as (now' & Hseen & [E|[j E]]);
        rewrite Ht', Eid in Ht; rewrite E in Ht; apply Some_VStr_inj in Ht.
      * by eapply submit_id_not_import_id.
      * apply import_id_inj in Ht as [E1 E2]. subst now'.
        by eapply Hfresh; [apply Hread|].
    + apply NoDup_alt. intros i j x.
      rewrite !list_lookup_fmap.
      destruct (newTradesWithIds now l !! i) as [ti|] eqn:Ei; [|done].
      destruct (newTradesWithIds now l !! j) as [tj|] eqn:Ej; [|done].
      apply newTradesWithIds_lookup in Ei as [_ Ei], Ej as [_ Ej].
      simpl. rewrite Ei, Ej. intros <- E.
      assert (import_id (now j) j = import_id (now i) i) as E' by congruence.
      by apply import_id_inj in E' as [_ ->].
  - apply Forall_app. split.
    + eapply Forall_impl; [done|]. intros t. apply stamped_mono. set_solver.
    + apply Forall_lookup. intros i t Hi.
      apply newTradesWithIds_lookup in Hi as [Hi Eid].
      exists (now i). split; [apply elem_of_app; left; by apply Hread|].
      right. by exists i.
Qed.

Lemma trades_runAiImport excelJson reply now st :
  trades (runAiImport excelJson reply now st).1
  = match excelJson, reply with
    | Some (_ :: _), Parsed (VArr (x :: l)) =>
        trades st ++ newTradesWithIds now (x :: l)
    | _, _ => trades st
    end.
Proof.
  destruct excelJson as [[|r rows]|]; [reflexivity| |reflexivity].
  destruct reply as [| |[| | | | |[|x l]|]]; reflexivity.
Qed.

Lemma trades_handleSubmit today form now st :
  trades (handleSubmit today form now st).1.1
  = if accepted form then trades (addTrade (submitted form) now st)
    else trades st.
Proof. unfold handleSubmit. destruct (accepted form); reflexivity. Qed.

Lemma step_inv seen op st :
  journal_inv seen (trades st) →
  forallb (λ t, negb (existsb (Z.eqb t) seen)) (readings op) = true →
  journal_inv (readings op ++ seen) (trades (step st op)).
Proof.
  intros Hinv Hfresh. pose proof (fresh_spec _ _ Hfresh) as Hf. clear Hfresh.
  destruct op as [today form now|excelJson reply now];
    unfold step, readings in *.
  - rewrite trades_handleSubmit. destruct (accepted form); [|done].
    apply addTrade_inv; [done|]. apply Hf. set_solver.
  - rewrite trades_runAiImport.
    destruct excelJson as [[|r rows]|]; [done| |done].
    destruct reply as [| |[| | | | |[|x l]|]]; try done.
    by apply import_inv.
Qed.

Lemma run_inv ops : ∀ seen st,
  journal_inv seen (trades st) → clock_fresh seen ops = true →
  ∃ seen', journal_inv seen' (trades (run ops st)).
Proof.
  induction ops as [|op ops IH]; intros seen st Hinv Hfresh; simpl in *.
  - by exists seen.
  - apply andb_true_iff in Hfresh as [H1 H2].
    eapply IH; [|exact H2]. by apply step_inv.
Qed.

(** Trades are only ever appended: what is in the journal stays as it is. *)
Lemma step_appends st op : trades st `prefix_of` trades (step st op).
Proof.
  destruct op as [today form now|excelJson reply now]; unfold step.
  - rewrite trades_handleSubmit. destruct (accepted form); [|done].
    rewrite trades_addTrade. by apply prefix_app_r.
  - rewrite trades_runAiImport.
    destruct excelJson as [[|r rows]|]; [done| |done].
    destruct reply as [| |[| | | | |[|x l]|]]; try done.
    by apply prefix_app_r.
Qed.

Lemma run_appends ops : ∀ st, trades st `prefix_of` trades (run ops st).
Proof.
  induction ops as [|op ops IH]; intros st; simpl; [done|].
  etrans; [apply step_appends|apply IH].
Qed.

(** C3, as amended: starting from an empty journal, the ids stay pairwise
    distinct through any sequence of form submissions and imports in which
    no operation reads a clock value that an earlier operation has read; and
    the trades stored after the first [n] operations, ids included, are
    still there unchanged at the end. *)
Theorem ids_unique_when_clock_fresh (ops : list Op) :
  clock_fresh [] ops = true →
  ids_unique (run ops initialState)
  ∧ ∀ n, trades (run (take n ops) initialState)
           `prefix_of` trades (run ops initialState).
Proof.
  intros Hfresh. split.
  - destruct (run_inv ops [] initialState) as (seen & Hnd & _); [|done..].
    split; [apply NoDup_nil_2|apply Forall_nil_2].
  - intros n. rewrite <- (take_drop n ops) at 2.
    unfold run. rewrite foldl_app. apply run_appends.
Qed.

Lemma ids_unique_when_clock_fresh_witness :
  clock_fresh [] sample_ops = true ∧ ids_unique (run sample_ops initialState).
Proof.
  split; [reflexivity|].
  apply (ids_unique_when_clock_fresh sample_ops). reflexivity.
Defined.

(** C3, as stated, fails: two submissions that read the same millisecond
    from the clock get the same id. *)
Lemma same_millisecond_same_id :
  ¬ ids_unique (run same_millisecond initialState).
Proof.
  unfold ids_unique.
  assert (trade_id <$> trades (run same_millisecond initialState)
          = [Some (VStr "1700000000000"); Some (VStr "1700000000000")]) as ->
    by (vm_compute; reflexivity).
  intros H. apply NoDup_cons in H as [H _]. apply H. apply elem_of_cons. by left.
Qed.

(** ** Enum fields *)

Lemma submitted_lookup form (k : string) :
  k ≠ "commission" → k ≠ "pnl" → k ≠ "lotSize" →
  submitted form !! k = form_object form !! k.
Proof.
  intros. unfold submitted. generalize (form_object form). intros o.
  by do 3 (rewrite lookup_insert_ne by done).
Qed.

Lemma submitted_enum_fields form :
  let t := submitted form in
  t !! "position" = Some (VStr (Position_str (Form.position form)))
  ∧ t !! "status" = Some (VStr (Status_str (Form.status form)))
  ∧ t !! "session" = Some (VStr (Session_str (Form.session form)))
  ∧ t !! "bias" = Some (VStr (Bias_str (Form.bias form)))
  ∧ t !! "newsImpact" = Some (VStr (NewsImpact_str (Form.newsImpact form)))
  ∧ t !! "grade" = Some (VStr (Grade_str (Form.grade form))).
Proof.
  cbv zeta. rewrite !submitted_lookup by done. split_and!; reflexivity.
Qed.

Lemma valid_enums_insert_id (o : gmap string value) (v : value) :
  valid_enums (VObj (<["id" := v]> o)) = valid_enums (VObj o).
Proof.
  unfold valid_enums. generalize dependent o. intros o.
  by do 6 (rewrite lookup_insert_ne by done).
Qed.

Lemma submitted_valid_enums form : valid_enums (VObj (submitted form)) = true.
Proof.
  destruct (submitted_enum_fields form) as (Ep & Est & Ese & Eb & En & Eg).
  unfold valid_enums. rewrite Ep, Est, Ese, Eb, En, Eg.
  repeat (apply andb_true_intro; split).
  - by destruct (Form.position form).
  - by destruct (Form.status form).
  - by destruct (Form.session form).
  - by destruct (Form.bias form).
  - by destruct (Form.newsImpact form).
  - by destruct (Form.grade form).
Qed.

(** C2, as amended: a trade created by form submission holds a declared
    value in each of its six enum fields; an import does no coercion: it
    appends to the journal one trade for each element of the model's
    answer, holding every property of the element but [id] as answered, so
    that the enum fields of the stored trade are declared values exactly
    when the answer made them so. *)
Theorem enums_valid_from_form_and_kept_by_import :
  (∀ today form now st, accepted form = true →
     ∃ t, trades (handleSubmit today form now st).1.1 = trades st ++ [t]
          ∧ valid_enums t = true)
  ∧ (∀ rows importedTrades now st,
       rows ≠ [] → importedTrades ≠ [] →
       ∃ new,
         trades (runAiImport (Some rows) (Parsed (VArr importedTrades))
                   now st).1 = trades st ++ new
         ∧ length new = length importedTrades
         ∧ ∀ i x, importedTrades !! i = Some x →
             ∃ t, new !! i = Some (VObj t)
                  ∧ (∀ k, k ≠ "id" → t !! k = spread x !! k)
                  ∧ valid_enums (VObj t) = valid_enums (VObj (spread x))).
Proof.
  split.
  - intros today form now st Hacc.
    rewrite trades_handleSubmit, Hacc, trades_addTrade.
    eexists; split; [reflexivity|].
    rewrite valid_enums_insert_id. apply submitted_valid_enums.
  - intros rows importedTrades now st Hrows Hans.
    destruct rows as [|r rows]; [done|].
    destruct importedTrades as [|y l]; [done|].
    exists (newTradesWithIds now (y :: l)). rewrite trades_runAiImport.
    split_and!; [reflexivity|unfold newTradesWithIds; by rewrite length_imap|].
    intros i x Hi. unfold newTradesWithIds. rewrite list_lookup_imap, Hi.
    eexists; split_and!; [reflexivity| |apply valid_enums_insert_id].
    intros k Hk. by rewrite lookup_insert_ne.
Qed.

Lemma enums_valid_from_form_and_kept_by_import_witness :
  (accepted sample_form = true
   ∧ ∃ t, trades (handleSubmit "2024-01-01" sample_form noon initialState).1.1
          = trades initialState ++ [t] ∧ valid_enums t = true)
  ∧ ([sample_row] ≠ [] ∧ [sample_answer_trade] ≠ []
     ∧ ∃ new,
         trades (runAiImport (Some [sample_row])
                   (Parsed (VArr [sample_answer_trade])) (λ _, noon)
                   initialState).1 = trades initialState ++ new
         ∧ ∃ t, new !! 0 = Some (VObj t)
                ∧ t !! "position" = Some (VStr "buy")
                ∧ t !! "status" = None
                ∧ valid_enums (VObj t) = false).
Proof.
  split.
  - split; [reflexivity|].
    apply (proj1 enums_valid_from_form_and_kept_by_import). reflexivity.
  - split_and!; [done..|].
    destruct (proj2 enums_valid_from_form_and_kept_by_import [sample_row]
                [sample_answer_trade] (λ _, noon) initialState)
      as (new & Hnew & _ & Hkept); [done..|].
    exists new. split; [exact Hnew|].
    destruct (Hkept 0 sample_answer_trade eq_refl) as (t & Ht & Hprops & Hv).
    exists t. split_and!; [exact Ht|by rewrite Hprops..|by rewrite Hv].
Defined.

(** C2, as stated, fails: the model answers a row with position "buy" and
    no status, and the import stores the trade as answered. *)
Lemma import_stores_undeclared_enum :
  ¬ Forall (λ t, valid_enums t = true)
      (trades (run [Import (Some [sample_row]) (Parsed sample_answer)
                      (λ _, noon)] initialState)).
Proof.
  intros H. apply (proj2 (Forall_fmap valid_enums (λ b, b = true) _)) in H.
  assert (valid_enums <$>
            trades (run [Import (Some [sample_row]) (Parsed sample_answer)
                           (λ _, noon)] initialState) = [false]) as E
    by (vm_compute; reflexivity).
  rewrite E in H. apply Forall_cons in H as [H _]. discriminate H.
Qed.

(** ** Guards of the handlers *)

(** Splits a membership in a list that is written out into its cases. *)
Ltac elem_cases H :=
  repeat (apply elem_of_cons in H as [H|H]; [try discriminate H|]);
  try (by apply elem_of_nil in H).

(** C4: with fewer than three trades an analysis is refused with an alert;
    no request is made and the state, with its trades and its displayed
    result, is left as it was. *)
Theorem analysis_refused_below_three_trades (reply : Reply) (st : State) :
  length (trades st) < 3 →
  runAiAnalysis reply st
  = (st, [Alert "Please add at least 3 trades to run AI analysis."]).
Proof.
  intros Hlen. unfold runAiAnalysis.
  destruct (Nat.ltb_spec (length (trades st)) 3) as [_|Hge]; [reflexivity|lia].
Qed.

Lemma analysis_refused_below_three_trades_witness :
  length (trades analysed) < 3
  ∧ runAiAnalysis CallFails analysed
    = (analysed, [Alert "Please add at least 3 trades to run AI analysis."]).
Proof.
  split; [simpl; lia|].
  apply (analysis_refused_below_three_trades CallFails analysed). simpl; lia.
Defined.

(** C5: an import of no rows is refused with an alert; no request is made,
    no trade is created and the state is left as it was. *)
Theorem empty_import_refused (reply : Reply) (now : nat → Z) (st : State) :
  runAiImport (Some []) reply now st
  = (st, [Alert "The Excel file is empty or could not be read."])
  ∧ runAiImport None reply now st
    = (st, [Alert "The Excel file is empty or could not be read."]).
Proof. split; reflexivity. Qed.

(** C6: an analysis run that fails ends with no displayed result, whatever
    was displayed before, and reports the error. *)
Theorem failed_analysis_clears_result (reply : Reply) (st : State) :
  3 ≤ length (trades st) →
  analysis_fails reply st = true →
  analysisResult (runAiAnalysis reply st).1 = VNull
  ∧ trades (runAiAnalysis reply st).1 = trades st
  ∧ ∃ effects, (runAiAnalysis reply st).2 = effects ++ analysis_error.
Proof.
  intros Hlen Hfail. unfold runAiAnalysis, analysis_fails in *.
  destruct (Nat.ltb_spec (length (trades st)) 3) as [Hlt|_]; [lia|].
  destruct (tradesAsText (trades st)) as [text|].
  - destruct reply as [| |v]; [| |discriminate Hfail];
      (split_and!; [reflexivity..|]);
      by exists [GenerateContent (AnalysisRequest text)].
  - split_and!; [reflexivity..|]. by exists [].
Qed.

Lemma failed_analysis_clears_result_witness :
  3 ≤ length (trades failing_state)
  ∧ analysis_fails Unparseable failing_state = true
  ∧ analysisResult (runAiAnalysis Unparseable failing_state).1 = VNull.
Proof.
  split_and!; [simpl; lia|reflexivity|].
  apply (failed_analysis_clears_result Unparseable failing_state);
    [simpl; lia|reflexivity].
Defined.

(** C7: the request of an import carries the first 100 rows and nothing
    else of the rows decides what the import does. *)
Theorem import_samples_first_100_rows (rows rows' : list value)
  (reply : Reply) (now : nat → Z) (st : State) :
  take 100 rows = take 100 rows' →
  runAiImport (Some rows) reply now st = runAiImport (Some rows') reply now st
  ∧ ∀ sample,
      GenerateContent (ImportRequest sample)
        ∈ (runAiImport (Some rows) reply now st).2 →
      sample = take 100 rows ∧ length sample ≤ 100.
Proof.
  intros Hsame. split.
  - destruct rows as [|r rows], rows' as [|r' rows']; try discriminate Hsame;
      [reflexivity|].
    unfold runAiImport. by rewrite Hsame.
  - intros sample Hin.
    assert (sample = take 100 rows) as ->; [|split; [done|]].
    + destruct rows as [|r rows]; [by elem_cases Hin|].
      unfold runAiImport in Hin.
      destruct reply as [| |[| | | | |[|x l]|]]; cbn [snd] in Hin;
        elem_cases Hin; congruence.
    + rewrite length_take. lia.
Qed.

Lemma import_samples_first_100_rows_witness :
  take 100 (many_rows VNull) = take 100 (many_rows (VBool true))
  ∧ runAiImport (Some (many_rows VNull)) Unparseable (λ _, noon) initialState
    = runAiImport (Some (many_rows (VBool true))) Unparseable (λ _, noon)
        initialState.
Proof.
  split; [reflexivity|].
  apply (import_samples_first_100_rows (many_rows VNull)
           (many_rows (VBool true)) Unparseable (λ _, noon) initialState).
  reflexivity.
Defined.

(** C8: when nothing is stored, or the store cannot be read, or what is
    stored is not JSON, loading throws nothing and leaves the initial state,
    whose journal is empty, as it is; at most the failure is logged. *)
Theorem load_falls_back_to_empty (saved : Stored) :
  absent_or_corrupt saved = true →
  ∃ effects,
    loadSavedTrades saved initialState = (Ready initialState, effects)
    ∧ trades initialState = []
    ∧ ∀ e, e ∈ effects → ∃ msg, e = ConsoleError msg.
Proof.
  intros Hbad.
  destruct saved as [| |text [v|]]; try discriminate Hbad;
    unfold loadSavedTrades; try destruct (string_truthy text);
    eexists; (split_and!; [reflexivity..|]); intros e He;
    elem_cases He; by eexists.
Qed.

Lemma load_falls_back_to_empty_witness :
  absent_or_corrupt (Item "[{" None) = true
  ∧ ∃ effects,
      loadSavedTrades (Item "[{" None) initialState
      = (Ready initialState, effects)
      ∧ trades initialState = []
      ∧ ∀ e, e ∈ effects → ∃ msg, e = ConsoleError msg.
Proof.
  split; [reflexivity|].
  apply (load_falls_back_to_empty (Item "[{" None)). reflexivity.
Defined.

(** C9: a submitted trade has lot size 0 when the lot size input is empty or
    does not parse as a number, and commission 0 when the commission input
    is empty or does not parse as a number. *)
Theorem submitted_amounts_default_to_zero (today : string) (form : Form.t)
  (now : Z) (st : State) :
  accepted form = true →
  ∃ t, trades (handleSubmit today form now st).1.1 = trades st ++ [VObj t]
    ∧ (Form.lotSize form = "" ∨ parseFloat (Form.lotSize form) = NaN →
       t !! "lotSize" = Some (VNum (Fin 0)))
    ∧ (Form.commission form = "" ∨ parseFloat (Form.commission form) = NaN →
       t !! "commission" = Some (VNum (Fin 0))).
Proof.
  intros Hacc. rewrite trades_handleSubmit, Hacc, trades_addTrade.
  eexists; split_and!; [reflexivity|..]; intros H;
    rewrite lookup_insert_ne by done; unfold submitted.
  - do 2 (rewrite lookup_insert_ne by done).
    rewrite lookup_insert_eq. by destruct H as [->| ->].
  - rewrite lookup_insert_eq. by destruct H as [->| ->].
Qed.

Lemma submitted_amounts_default_to_zero_witness :
  accepted sample_form = true
  ∧ ∃ t, trades (handleSubmit "2024-01-01" sample_form noon initialState).1.1
         = trades initialState ++ [VObj t]
    ∧ (Form.lotSize sample_form = ""
       ∨ parseFloat (Form.lotSize sample_form) = NaN →
       t !! "lotSize" = Some (VNum (Fin 0)))
    ∧ (Form.commission sample_form = ""
       ∨ parseFloat (Form.commission sample_form) = NaN →
       t !! "commission" = Some (VNum (Fin 0))).
Proof.
  split; [reflexivity|].
  apply (submitted_amounts_default_to_zero "2024-01-01" sample_form noon
           initialState).
  reflexivity.
Defined.

(** C10: without an analysis result the export only alerts; a file is
    written only when a result is present, under the fixed name, and its
    first two sheets are the summary of that result and the trades of the
    current state. *)
Theorem export_needs_analysis_result (st : State) :
  (truthy (analysisResult st) = false →
   handleDownload st
   = [Alert "Please run the AI Analysis first to generate a report."])
  ∧ (∀ wb name, WriteFile wb name ∈ handleDownload st →
       truthy (analysisResult st) = true
       ∧ name = "AI_Trading_Analysis.xlsx"
       ∧ ∃ summary charts,
           summaryData (analysisResult st) = Some summary
           ∧ wb = ("Analysis Summary", summary)
                    :: ("All Trades", trades st) :: charts).
Proof.
  unfold handleDownload. destruct (truthy (analysisResult st)).
  - split; [discriminate|]. intros wb name Hin. unfold workbook in Hin.
    destruct (summaryData (analysisResult st)) as [summary|];
      [|by elem_cases Hin].
    cbn [mbind option_bind] in Hin.
    repeat (match type of Hin with
            | context [seriesData ?r ?s ?a ?b] =>
                destruct (seriesData r s a b); cbn [mbind option_bind] in Hin;
                [|by elem_cases Hin]
            end).
    elem_cases Hin. injection Hin as -> ->.
    split_and!; [reflexivity..|]. eexists _, _. split; reflexivity.
  - split; [reflexivity|]. intros wb name Hin. by elem_cases Hin.
Qed.

Lemma export_needs_analysis_result_witness :
  truthy (analysisResult initialState) = false
  ∧ handleDownload initialState
    = [Alert "Please run the AI Analysis first to generate a report."].
Proof.
  split; [reflexivity|].
  apply (proj1 (export_needs_analysis_result initialState)). reflexivity.
Defined.

Example export_writes_the_result :
  ∃ charts,
    handleDownload analysed
    = [WriteFile (("Analysis Summary",
                   default [] (summaryData sample_result))
                  :: ("All Trades", []) :: charts)
         "AI_Trading_Analysis.xlsx"]
    ∧ length charts = 4.
Proof. eexists. split; [vm_compute; reflexivity|reflexivity]. Qed.

(** * Further properties *)

(** ** The form *)

(** X1: an accepted submission adds one trade and resets the form, and the
    reset form is refused when submitted again: it adds nothing and only
    alerts. *)
Theorem resubmitting_reset_form_is_refused (today : string) (form : Form.t)
  (now now' : Z) (st : State) :
  accepted form = true →
  let '(st1, form1, _) := handleSubmit today form now st in
  length (trades st1) = S (length (trades st))
  ∧ form1 = initialFormState today
  ∧ handleSubmit today form1 now' st1
    = (st1, form1, [Alert "Please fill at least Pair and PnL (Rp)."]).
Proof.
  intros Hacc. unfold handleSubmit at 1. rewrite Hacc.
  cbv beta iota zeta. split_and!.
  - rewrite trades_addTrade, length_app. simpl. lia.
  - reflexivity.
  - reflexivity.
Qed.

Lemma resubmitting_reset_form_is_refused_witness :
  accepted sample_form = true
  ∧ let '(st1, form1, _) :=
      handleSubmit "2024-01-01" sample_form noon initialState in
    length (trades st1) = S (length (trades initialState))
    ∧ form1 = initialFormState "2024-01-01"
    ∧ handleSubmit "2024-01-01" form1 (noon + 1) st1
      = (st1, form1, [Alert "Please fill at least Pair and PnL (Rp)."]).
Proof.
  split; [reflexivity|].
  apply (resubmitting_reset_form_is_refused "2024-01-01" sample_form noon
           (noon + 1) initialState).
  reflexivity.
Defined.

Lemma digit_of_pretty_N_char (d : N) :
  (d < 10)%N → digit_of (pretty_N_char d) = Some d.
Proof.
  intros Hd.
  assert (d = 0 ∨ d = 1 ∨ d = 2 ∨ d = 3 ∨ d = 4 ∨ d = 5 ∨ d = 6 ∨ d = 7
          ∨ d = 8 ∨ d = 9)%N as H by lia.
  repeat (destruct H as [->|H]; [reflexivity|]). by subst.
Qed.

(** Reading back the digits that [pretty] wrote. *)
Lemma read_digits_pretty_N_go (x : N) :
  ∃ k : nat, ((0 < x)%N → 0 < k)
    ∧ ∀ s acc n, read_digits (pretty_N_go x s) acc n
                 = read_digits s (acc * 10 ^ N.of_nat k + x)%N (n + k).
Proof.
  induction (N.lt_wf_0 x) as [x _ IH].
  destruct (decide (x = 0%N)) as [->|Hx].
  - exists 0. split; [lia|]. intros s acc n. rewrite pretty_N_go_0.
    f_equal; [|lia]. simpl. lia.
  - destruct (IH (x `div` 10)%N) as (k & _ & Hk); [apply N.div_lt; lia|].
    exists (S k). split; [lia|]. intros s acc n.
    rewrite pretty_N_go_step, Hk by lia. simpl.
    rewrite digit_of_pretty_N_char by (apply N.mod_lt; lia).
    f_equal; [|lia].
    rewrite Nat2N.inj_succ, N.pow_succ_r'.
    pose proof (N.div_mod x 10). lia.
Qed.

Lemma digit_is_plain (c : ascii) (d : N) :
  digit_of c = Some d →
  is_space c = false ∧ read_sign (String c "") = (false, String c "")
  ∧ Ascii.eqb c "I" = false ∧ Ascii.eqb c "." = false.
Proof.
  destruct c as [[] [] [] [] [] [] [] []]; vm_compute; intros H;
    first [discriminate H | done].
Qed.

Lemma scale10_integer (x : N) : (scale10 (Z.of_N x) (0 - 0)%Z == inject_Z (Z.of_N x))%Q.
Proof. unfold scale10, Qeq. simpl. lia. Qed.

Lemma parseFloat_digits (s : string) (x : N) (k : nat) :
  0 < k → all_digits s → read_digits s 0%N 0 = (x, k, EmptyString) →
  ∃ q, parseFloat s = Fin q ∧ parseFloat (String "-" s) = Fin (- q)
       ∧ (q == inject_Z (Z.of_N x))%Q.
Proof.
  intros Hk Hs Hrd. exists (scale10 (Z.of_N x) (0 - 0)%Z).
  destruct s as [|c r]; [simpl in Hrd; simplify_eq; lia|].
  destruct Hs as [[d Hd] _]. destruct k as [|k]; [lia|].
  split_and!; [| |apply scale10_integer];
    destruct c as [[] [] [] [] [] [] [] []]; try (by vm_compute in Hd);
    unfold parseFloat; simpl in Hrd |- *; rewrite Hrd; reflexivity.
Qed.

Lemma parseFloat_pretty_pos (p : positive) :
  ∃ q, parseFloat (pretty (N.pos p)) = Fin q
       ∧ parseFloat (String "-" (pretty (N.pos p))) = Fin (- q)
       ∧ (q == inject_Z (Z.pos p))%Q.
Proof.
  destruct (read_digits_pretty_N_go (N.pos p)) as (k & Hk & Hrd).
  apply (parseFloat_digits _ (N.pos p) k); [apply Hk; lia|apply pretty_N_digits|].
  unfold pretty, pretty_N. case_decide; [done|].
  rewrite Hrd. simpl. repeat (f_equal; try lia).
Qed.

Lemma parseFloat_pretty_Z (n : Z) :
  ∃ q, parseFloat (pretty n) = Fin q ∧ (q == inject_Z n)%Q.
Proof.
  destruct n as [|p|p].
  - by eexists.
  - destruct (parseFloat_pretty_pos p) as (q & Hq & _ & Eq). by exists q.
  - destruct (parseFloat_pretty_pos p) as (q & _ & Hq & Eq).
    exists (- q)%Q. split; [exact Hq|].
    rewrite Eq. reflexivity.
Qed.

Lemma submitted_pnl form :
  submitted form !! "pnl" = Some (VNum (parseFloat (Form.pnl form))).
Proof.
  unfold submitted. rewrite lookup_insert_ne by done.
  by rewrite lookup_insert_eq.
Qed.

(** X2: a PnL typed as the decimal text of an integer, negative or not and
    of absolute value at most 2^53, is stored as that integer.  (Up to
    2^53 every integer is a double; beyond, the program stores the nearest
    double, which this embedding does not compute.) *)
Theorem integer_pnl_is_stored_as_typed (today : string) (form : Form.t)
  (now : Z) (st : State) (n : Z) :
  accepted form = true →
  (Z.abs n ≤ 2 ^ 53)%Z →
  Form.pnl form = pretty n →
  ∃ t q, trades (handleSubmit today form now st).1.1 = trades st ++ [VObj t]
         ∧ t !! "pnl" = Some (VNum (Fin q))
         ∧ (q == inject_Z n)%Q.
Proof.
  intros Hacc _ Hpnl. rewrite trades_handleSubmit, Hacc, trades_addTrade.
  destruct (parseFloat_pretty_Z n) as (q & Hq & Eq).
  eexists _, q. split_and!; [reflexivity| |exact Eq].
  rewrite lookup_insert_ne by done. by rewrite submitted_pnl, Hpnl, Hq.
Qed.

Lemma integer_pnl_is_stored_as_typed_witness :
  accepted sample_form = true
  ∧ (Z.abs 150000 ≤ 2 ^ 53)%Z
  ∧ Form.pnl sample_form = pretty 150000%Z
  ∧ ∃ t q, trades (handleSubmit "2024-01-01" sample_form noon initialState).1.1
           = trades initialState ++ [VObj t]
           ∧ t !! "pnl" = Some (VNum (Fin q))
           ∧ (q == inject_Z 150000)%Q.
Proof.
  split_and!; [reflexivity|by vm_compute|reflexivity|].
  apply (integer_pnl_is_stored_as_typed "2024-01-01" sample_form noon
           initialState 150000); [reflexivity|by vm_compute|reflexivity].
Defined.

Lemma or_zero_is_amount (n : number) : is_amount (Some (VNum (or_zero n))) = true.
Proof. unfold or_zero. by destruct n as [|b|q]; simpl; try destruct (Qeq_bool q 0). Qed.

Lemma submitted_well_typed_fields form (id : string) :
  well_typed (VObj (<["id" := VStr id]> (submitted form))) = true.
Proof.
  unfold well_typed. rewrite valid_enums_insert_id, submitted_valid_enums.
  rewrite lookup_insert_eq.
  do 8 (rewrite (lookup_insert_ne _ "id") by done).
  rewrite submitted_pnl.
  rewrite !submitted_lookup by done.
  unfold submitted.
  rewrite lookup_insert_eq.
  do 2 (rewrite (lookup_insert_ne _ _ "lotSize") by done).
  rewrite lookup_insert_eq, !or_zero_is_amount.
  reflexivity.
Qed.

(** X3: the trade a form submission creates has every field of the
    interface [Trade], each of its declared type: strings, a boolean,
    numbers, declared enum values; its lot size and commission are never
    NaN. *)
Theorem submitted_trade_is_well_typed (today : string) (form : Form.t)
  (now : Z) (st : State) :
  accepted form = true →
  ∃ t, trades (handleSubmit today form now st).1.1 = trades st ++ [t]
       ∧ well_typed t = true.
Proof.
  intros Hacc. rewrite trades_handleSubmit, Hacc, trades_addTrade.
  eexists. split; [reflexivity|]. apply submitted_well_typed_fields.
Qed.

Lemma submitted_trade_is_well_typed_witness :
  accepted sample_form = true
  ∧ ∃ t, trades (handleSubmit "2024-01-01" sample_form noon initialState).1.1
         = trades initialState ++ [t]
         ∧ well_typed t = true.
Proof.
  split; [reflexivity|].
  apply (submitted_trade_is_well_typed "2024-01-01" sample_form noon
           initialState).
  reflexivity.
Defined.

Lemma ids_of_submissions today inputs : ∀ st,
  Forall (λ input, accepted input.1 = true) inputs →
  trade_id <$> trades (run (submissions today inputs) st)
  = (trade_id <$> trades st)
      ++ ((λ now : Z, Some (VStr (pretty now))) <$> inputs.*2).
Proof.
  induction inputs as [|[form now] inputs IH]; intros st Hacc.
  - simpl. by rewrite app_nil_r.
  - apply Forall_cons in Hacc as [Hform Hacc]. simpl in Hform.
    change (run (submissions today ((form, now) :: inputs)) st)
      with (run (submissions today inputs) (step st (Submit today form now))).
    rewrite IH by done. unfold step.
    rewrite trades_handleSubmit, Hform, trades_addTrade.
    rewrite fmap_app, list_fmap_singleton, trade_id_insert.
    by rewrite <- app_assoc.
Qed.

(** X4: for a journal filled by accepted form submissions alone, the ids are
    pairwise distinct exactly when the clock readings of the submissions
    are. *)
Theorem submitted_ids_unique_iff_clock_distinct (today : string)
  (inputs : list (Form.t * Z)) :
  Forall (λ input, accepted input.1 = true) inputs →
  ids_unique (run (submissions today inputs) initialState)
  ↔ NoDup inputs.*2.
Proof.
  intros Hacc. unfold ids_unique. rewrite ids_of_submissions by done.
  simpl. apply NoDup_fmap. intros a b E.
  apply Some_VStr_inj in E. by apply (inj pretty).
Qed.

Lemma submitted_ids_unique_iff_clock_distinct_witness :
  Forall (λ input, accepted input.1 = true)
    [(sample_form, noon); (sample_form, (noon + 1)%Z)]
  ∧ (ids_unique (run (submissions "2024-01-01"
                        [(sample_form, noon); (sample_form, (noon + 1)%Z)])
                   initialState)
     ↔ NoDup [noon; (noon + 1)%Z]).
Proof.
  split; [by repeat constructor|].
  apply (submitted_ids_unique_iff_clock_distinct "2024-01-01"
           [(sample_form, noon); (sample_form, (noon + 1)%Z)]).
  by repeat constructor.
Defined.

(** ** Import and upload *)

(** X5: adding trades, by the form or by import, never touches the analysis
    result on display: it stays what it was, whatever was added. *)
Theorem creating_trades_keeps_displayed_result (ops : list Op) (st : State) :
  analysisResult (run ops st) = analysisResult st.
Proof.
  revert st. induction ops as [|op ops IH]; intros st; [reflexivity|].
  change (run (op :: ops) st) with (run ops (step st op)). rewrite IH.
  destruct op as [today form now|excelJson reply now]; unfold step.
  - unfold handleSubmit. destruct (accepted form); reflexivity.
  - destruct excelJson as [[|r rows]|]; [reflexivity| |reflexivity].
    destruct reply as [| |[| | | | |[|x l]|]]; reflexivity.
Qed.

(** X6: an import whose answer is a non-empty array appends one trade per
    element of the answer, after the trades already there and in the order
    of the answer, and announces that number, however many rows were
    uploaded. Whatever an element is, an object with an id of its own or no
    object at all, the trade stored for it is an object that has the
    element's own properties and, as its id, the import id made from the
    clock and the element's position. *)
Theorem import_appends_one_trade_per_answer (rows importedTrades : list value)
  (now : nat → Z) (st : State) :
  rows ≠ [] → importedTrades ≠ [] →
  let result := runAiImport (Some rows) (Parsed (VArr importedTrades)) now st in
  ∃ new,
    trades result.1 = trades st ++ new
    ∧ length new = length importedTrades
    ∧ result.2 = [GenerateContent (ImportRequest (take 100 rows));
                  Alert ("Successfully imported "
                         +:+ pretty (length importedTrades) +:+ " trades!")]
    ∧ ∀ i x, importedTrades !! i = Some x →
        ∃ o, new !! i = Some (VObj o)
             ∧ o !! "id" = Some (VStr (import_id (now i) i))
             ∧ ∀ k, k ≠ "id" → o !! k = spread x !! k.
Proof.
  intros Hrows Hans. destruct rows as [|r rows]; [done|].
  destruct importedTrades as [|x l]; [done|].
  exists (newTradesWithIds now (x :: l)). split_and!.
  - reflexivity.
  - unfold newTradesWithIds. by rewrite length_imap.
  - cbv zeta. unfold runAiImport. cbn [snd].
    unfold newTradesWithIds. by rewrite length_imap.
  - intros i y Hi. unfold newTradesWithIds. rewrite list_lookup_imap, Hi.
    eexists. split_and!; [reflexivity|by rewrite lookup_insert_eq|].
    intros k Hk. by rewrite lookup_insert_ne.
Qed.

Lemma import_appends_one_trade_per_answer_witness :
  [sample_row] ≠ [] ∧ [VObj {["id" := VStr "mine"]}; VNull] ≠ []
  ∧ ∃ new,
      trades (runAiImport (Some [sample_row])
                (Parsed (VArr [VObj {["id" := VStr "mine"]}; VNull]))
                (λ _, noon) initialState).1
      = trades initialState ++ new
      ∧ length new = 2
      ∧ ∃ o, new !! 0 = Some (VObj o)
             ∧ o !! "id" = Some (VStr "ai-import-1700000000000-0").
Proof.
  split_and!; [done..|].
  destruct (import_appends_one_trade_per_answer [sample_row]
              [VObj {["id" := VStr "mine"]}; VNull]
              (λ _, noon) initialState) as (new & Ht & Hl & _ & Hnew);
    [done..|].
  exists new. split_and!; [done..|].
  destruct (Hnew 0 (VObj {["id" := VStr "mine"]}) eq_refl) as (o & Ho & Hid & _).
  by exists o.
Defined.

(** X7: an import that gets past its guard, and an analysis that gets past
    its guard, end with the busy flag lowered, whatever the model answers. *)
Theorem started_runs_lower_busy_flag (rows : list value) (reply : Reply)
  (now : nat → Z) (st : State) :
  (rows ≠ [] → loading (runAiImport (Some rows) reply now st).1 = false)
  ∧ (3 ≤ length (trades st) → loading (runAiAnalysis reply st).1 = false).
Proof.
  split.
  - intros Hrows. destruct rows as [|r rows]; [done|].
    destruct reply as [| |[| | | | |[|x l]|]]; reflexivity.
  - intros Hlen. unfold runAiAnalysis.
    destruct (Nat.ltb_spec (length (trades st)) 3) as [Hlt|_]; [lia|].
    destruct (tradesAsText (trades st)); [|reflexivity].
    destruct reply; reflexivity.
Qed.

Lemma started_runs_lower_busy_flag_witness :
  [sample_row] ≠ []
  ∧ loading (runAiImport (Some [sample_row]) CallFails (λ _, noon)
               (setLoading true initialState)).1 = false.
Proof.
  split; [done|].
  apply (proj1 (started_runs_lower_busy_flag [sample_row] CallFails
                  (λ _, noon) (setLoading true initialState))).
  done.
Defined.

(** X8: after an upload with a file chosen the file input is cleared, and the
    busy flag stays raised exactly when the sheet has no rows: the import
    then returns at its guard, which does not lower the flag. *)
Theorem upload_leaves_busy_flag_on_empty_sheet (upload : Upload)
  (reply : Reply) (now : nat → Z) (st : State) :
  upload ≠ NoFile →
  let result := handleFileUpload upload reply now st in
  result.2 = true
  ∧ (loading result.1.1 = true ↔ upload = Rows []).
Proof.
  intros Hfile. destruct upload as [| |msg|[|r rows]]; [done|..];
    cbv zeta; (split; [reflexivity|]).
  - by split.
  - by split.
  - by split.
  - destruct reply as [| |[| | | | |[|x l]|]]; by split.
Qed.

Lemma upload_leaves_busy_flag_on_empty_sheet_witness :
  Rows [] ≠ NoFile
  ∧ loading (handleFileUpload (Rows []) CallFails (λ _, noon)
               initialState).1.1 = true.
Proof.
  split; [done|].
  apply (upload_leaves_busy_flag_on_empty_sheet (Rows []) CallFails
           (λ _, noon) initialState); done.
Defined.

(** X9: an upload reaches the model only when the sheet has rows, and then
    with the first 100 of them; when no file was chosen, the reader fails or
    the workbook cannot be read, no request is made and the journal is
    left as it was. *)
Theorem upload_requests_only_for_rows (upload : Upload) (reply : Reply)
  (now : nat → Z) (st : State) :
  let result := handleFileUpload upload reply now st in
  (∀ req, GenerateContent req ∈ result.1.2 →
     ∃ r rows, upload = Rows (r :: rows)
               ∧ req = ImportRequest (take 100 (r :: rows)))
  ∧ ((∀ r rows, upload ≠ Rows (r :: rows)) → trades result.1.1 = trades st).
Proof.
  cbv zeta. split.
  - intros req Hin. destruct upload as [| |msg|[|r rows]]; simpl in Hin;
      try (by elem_cases Hin).
    exists r, rows. split; [reflexivity|].
    destruct reply as [| |[| | | | |[|x l]|]]; elem_cases Hin;
      by injection Hin as ->.
  - intros Hno. destruct upload as [| |msg|[|r rows]]; try reflexivity.
    by destruct (Hno r rows).
Qed.

Lemma upload_requests_only_for_rows_witness :
  (∀ r rows, ReadFails ≠ Rows (r :: rows))
  ∧ trades (handleFileUpload ReadFails CallFails (λ _, noon) three_trades).1.1
    = trades three_trades.
Proof.
  split; [done|].
  apply (proj2 (upload_requests_only_for_rows ReadFails CallFails (λ _, noon)
                  three_trades)).
  done.
Defined.

(** ** Analysis *)



(** X11: the line written for a trade depends neither on its id nor on its
    notes: they are never sent to the model. *)
Theorem analysis_request_ignores_id_and_notes (o : gmap string value)
  (v : value) :
  csv_cells (VObj (<["id" := v]> o)) = csv_cells (VObj o)
  ∧ csv_cells (VObj (<["notes" := v]> o)) = csv_cells (VObj o).
Proof.
  unfold csv_cells, prop.
  split; by do 13 (rewrite lookup_insert_ne by done).
Qed.

Lemma csv_cells_is_Some (t : value) :
  is_Some (csv_cells t) → has_emotion t = true.
Proof.
  unfold has_emotion, csv_cells. intros [line H].
  repeat (match type of H with
          | (?m ≫= _) = Some _ =>
              let E := fresh "E" in
              destruct m eqn:E; [cbn [mbind option_bind] in H|discriminate H]
          end).
  match goal with
  | E : match ?emotion with _ => _ end = Some _ |- _ => by destruct emotion
  end.
Qed.

Lemma tradesAsText_None (ts : list value) (t : value) :
  t ∈ ts → has_emotion t = false → tradesAsText ts = None.
Proof.
  intros Hin Hno. apply mapM_None. apply Exists_exists. exists t.
  split; [done|].
  destruct (csv_cells t) eqn:E; [|done].
  assert (has_emotion t = true) by (apply csv_cells_is_Some; by eexists).
  congruence.
Qed.

(** X12: once the journal holds a trade whose emotion is not a string, as an
    import can store one, every later analysis fails before any request is
    made, whatever is added to the journal afterwards. *)
Theorem trade_without_emotion_blocks_analysis (t : value) (ops : list Op)
  (reply : Reply) (st : State) :
  t ∈ trades st → has_emotion t = false →
  3 ≤ length (trades (run ops st)) →
  (runAiAnalysis reply (run ops st)).2 = analysis_error
  ∧ analysisResult (runAiAnalysis reply (run ops st)).1 = VNull.
Proof.
  intros Hin Hno Hlen.
  assert (tradesAsText (trades (run ops st)) = None) as Hnone.
  { apply (tradesAsText_None _ t); [|done].
    eapply elem_of_prefix; [done|apply run_appends]. }
  unfold runAiAnalysis.
  destruct (Nat.ltb_spec (length (trades (run ops st))) 3) as [Hlt|_]; [lia|].
  by rewrite Hnone.
Qed.

Lemma trade_without_emotion_blocks_analysis_witness :
  ∃ t, t ∈ trades imported_once
       ∧ has_emotion t = false
       ∧ 3 ≤ length (trades (run (submissions "2024-01-01"
                                    [(sample_form, noon); (sample_form, noon)])
                               imported_once))
       ∧ (runAiAnalysis (Parsed sample_result)
            (run (submissions "2024-01-01"
                    [(sample_form, noon); (sample_form, noon)])
               imported_once)).2 = analysis_error.
Proof.
  exists (default VNull (head (trades imported_once))).
  assert (default VNull (head (trades imported_once)) ∈ trades imported_once)
    as Hin by (apply elem_of_cons; by left).
  split_and!; [exact Hin|reflexivity|simpl; lia|].
  apply (trade_without_emotion_blocks_analysis
           (default VNull (head (trades imported_once)))
           (submissions "2024-01-01"
              [(sample_form, noon); (sample_form, noon)])
           (Parsed sample_result) imported_once);
    [exact Hin|reflexivity|simpl; lia].
Defined.

Lemma trades_of_submissions today inputs : ∀ st,
  Forall (λ input, accepted input.1 = true) inputs →
  trades (run (submissions today inputs) st)
  = trades st
      ++ ((λ input : Form.t * Z,
             VObj (<["id" := VStr (pretty input.2)]> (submitted input.1)))
            <$> inputs).
Proof.
  induction inputs as [|[form now] inputs IH]; intros st Hacc.
  - simpl. by rewrite app_nil_r.
  - apply Forall_cons in Hacc as [Hform Hacc]. simpl in Hform.
    change (run (submissions today ((form, now) :: inputs)) st)
      with (run (submissions today inputs) (step st (Submit today form now))).
    rewrite IH by done. unfold step.
    rewrite trades_handleSubmit, Hform, trades_addTrade.
    by rewrite <- app_assoc.
Qed.

Lemma submitted_lotSize form :
  submitted form !! "lotSize"
  = Some (VNum (or_zero (parseFloat (Form.lotSize form)))).
Proof.
  unfold submitted. do 2 (rewrite lookup_insert_ne by done).
  by rewrite lookup_insert_eq.
Qed.

Lemma submitted_commission form :
  submitted form !! "commission"
  = Some (VNum (or_zero (parseFloat (Form.commission form)))).
Proof. unfold submitted. by rewrite lookup_insert_eq. Qed.

(** The fields of a submitted trade are strings, numbers and a boolean:
    each converts to a string, and the emotion is a string. *)
Lemma submitted_csv_cells form (id : string) :
  is_Some (csv_cells (VObj (<["id" := VStr id]> (submitted form)))).
Proof.
  unfold csv_cells, prop.
  do 13 (rewrite (lookup_insert_ne _ "id") by done).
  rewrite submitted_pnl, submitted_lotSize, submitted_commission.
  rewrite !submitted_lookup by done.
  by eexists.
Qed.

(** X13: a journal filled by accepted form submissions alone can always be
    analysed: with three trades or more, the analysis makes its request,
    with one line per submission. *)
Theorem submitted_journal_is_analysable (today : string)
  (inputs : list (Form.t * Z)) (reply : Reply) :
  Forall (λ input, accepted input.1 = true) inputs →
  3 ≤ length inputs →
  ∃ text,
    length text = length inputs
    ∧ GenerateContent (AnalysisRequest text)
        ∈ (runAiAnalysis reply (run (submissions today inputs) initialState)).2.
Proof.
  intros Hacc Hlen.
  pose proof (trades_of_submissions today inputs initialState Hacc) as Hts.
  change (trades initialState) with (@nil value) in Hts.
  rewrite app_nil_l in Hts.
  destruct (mapM_is_Some_2 csv_cells
              (trades (run (submissions today inputs) initialState)))
    as [text Htext].
  { rewrite Hts. apply Forall_fmap, Forall_forall. intros [form now] _.
    apply submitted_csv_cells. }
  exists text. split.
  - apply length_mapM in Htext. rewrite Hts, length_fmap in Htext. done.
  - unfold runAiAnalysis.
    destruct (Nat.ltb_spec
                (length (trades (run (submissions today inputs) initialState)))
                3) as [Hlt|_]; [rewrite Hts, length_fmap in Hlt; lia|].
    unfold tradesAsText. rewrite Htext.
    destruct reply; apply elem_of_cons; by left.
Qed.

Lemma submitted_journal_is_analysable_witness :
  Forall (λ input, accepted input.1 = true)
    [(sample_form, noon); (sample_form, noon); (sample_form, noon)]
  ∧ ∃ text,
      length text = 3
      ∧ GenerateContent (AnalysisRequest text)
          ∈ (runAiAnalysis CallFails
               (run (submissions "2024-01-01"
                       [(sample_form, noon); (sample_form, noon);
                        (sample_form, noon)]) initialState)).2.
Proof.
  split; [by repeat constructor|].
  apply (submitted_journal_is_analysable "2024-01-01"
           [(sample_form, noon); (sample_form, noon); (sample_form, noon)]
           CallFails); [by repeat constructor|simpl; lia].
Defined.

(** X14: escaping the quotes of an emotion leaves no quote on its own, and
    loses nothing: different texts are escaped to different texts. *)
Theorem replace_quotes_pairs_and_keeps_apart (s1 s2 : string) :
  quotes_paired (replace_quotes s1)
  ∧ (replace_quotes s1 = replace_quotes s2 → s1 = s2).
Proof.
  split.
  - induction s1 as [|c r IH]; [done|]. simpl.
    destruct (Ascii.eqb c dquote) eqn:E; simpl; [done|]. by rewrite E.
  - revert s2. induction s1 as [|c1 r1 IH]; intros [|c2 r2]; simpl.
    + done.
    + by destruct (Ascii.eqb c2 dquote).
    + by destruct (Ascii.eqb c1 dquote).
    + destruct (Ascii.eqb_spec c1 dquote) as [->|H1],
        (Ascii.eqb_spec c2 dquote) as [->|H2]; intros E.
      * injection E as E. by rewrite (IH r2).
      * injection E as E1 E2. congruence.
      * injection E as E1 E2. congruence.
      * injection E as -> E. by rewrite (IH r2).
Qed.

Lemma replace_quotes_pairs_and_keeps_apart_witness :
  replace_quotes "calm" = replace_quotes "calm"
  ∧ quotes_paired (replace_quotes "calm").
Proof.
  split; [reflexivity|].
  apply (proj1 (replace_quotes_pairs_and_keeps_apart "calm" "calm")).
Defined.

(** ** Export *)

Lemma mapM_imap_Some {X Y} (g : nat → X → option Y) (h : nat → X → Y)
  (l : list X) :
  (∀ i x, l !! i = Some x → g i x = Some (h i x)) →
  mapM (λ cell, cell) (imap g l) = Some (imap h l).
Proof.
  revert g h. induction l as [|x l IH]; intros g h Hg; [reflexivity|].
  rewrite !imap_cons. cbn [mapM]. rewrite (Hg 0 x) by reflexivity.
  cbn [mbind option_bind]. rewrite (IH (g ∘ S) (h ∘ S)); [reflexivity|].
  intros i y Hi. apply (Hg (S i) y Hi).
Qed.

Lemma index_nullish (data : value) (i : nat) :
  index data i = None ↔ nullish data = true.
Proof. destruct data; simpl; split; congruence. Qed.

Lemma prop_nullish (v : value) (k : string) :
  prop v k = None ↔ nullish v = true.
Proof. destruct v; simpl; split; congruence. Qed.

Lemma summaryData_is_Some (r : value) :
  is_Some (summaryData r)
  ↔ match prop r "metrics" with
    | Some metrics => negb (nullish metrics)
    | None => false
    end = true.
Proof.
  unfold summaryData. destruct (prop r "metrics") as [metrics|];
    cbn [mbind option_bind]; [|split; [by intros [? ?]|discriminate]].
  destruct (nullish metrics) eqn:E.
  - apply (prop_nullish _ "totalNetPnl") in E. rewrite E.
    split; [by intros [? ?]|discriminate].
  - split; [done|intros _].
    destruct metrics; try discriminate E; by eexists.
Qed.

Lemma seriesData_is_Some (r : value) (series labelCol dataCol : string) :
  is_Some (seriesData r series labelCol dataCol) ↔ series_ok r series = true.
Proof.
  unfold seriesData, series_ok.
  destruct (prop r series) as [chart|]; cbn [mbind option_bind];
    [|split; [by intros [? ?]|discriminate]].
  destruct (prop chart "labels") as [[| | | | |ls|]|];
    cbn [mbind option_bind]; try (split; [by intros [? ?]|discriminate]).
  destruct ls as [|label ls]; [split; [done|by eexists]|].
  destruct (prop chart "data") as [data|]; cbn [mbind option_bind].
  - destruct (nullish data) eqn:E.
    + apply (index_nullish _ 0) in E. rewrite imap_cons. cbn [mapM].
      cbn [mbind option_bind]. rewrite E.
      split; [by intros [? ?]|discriminate].
    + split; [done|intros _].
      erewrite (mapM_imap_Some _
                  (λ i label, row labelCol label dataCol
                                (default VUndef (index data i))));
        [by eexists|].
      intros i x _. destruct data; try discriminate E; reflexivity.
  - rewrite imap_cons. cbn [mapM]. split; [by intros [? ?]|discriminate].
Qed.

(** X15: what the export does is decided by the shape of the result on
    display: without a result it alerts; with a result that has its metrics
    and whose four chart series each have an array of labels and, unless
    that array is empty, data that can be indexed, it writes the file; with
    any other result it throws and writes nothing. *)
Theorem export_outcome_by_shape (st : State) :
  if truthy (analysisResult st) then
    if exportable (analysisResult st) then
      ∃ wb, handleDownload st = [WriteFile wb "AI_Trading_Analysis.xlsx"]
    else handleDownload st = [UncaughtTypeError]
  else
    handleDownload st
    = [Alert "Please run the AI Analysis first to generate a report."].
Proof.
  unfold handleDownload, exportable.
  destruct (truthy (analysisResult st)); [|reflexivity].
  cbn [andb]. unfold workbook.
  pose proof (summaryData_is_Some (analysisResult st)) as Hm.
  destruct (summaryData (analysisResult st)) as [summary|];
    [rewrite (proj1 Hm) by (by eexists)
    |destruct (match prop (analysisResult st) "metrics" with
               | Some metrics => negb (nullish metrics)
               | None => false
               end); [by destruct (proj2 Hm)|reflexivity]].
  cbn [mbind option_bind andb].
  repeat (match goal with
          | |- context [seriesData ?r ?s ?a ?b] =>
              let H := fresh "H" in
              pose proof (seriesData_is_Some r s a b) as H;
              destruct (seriesData r s a b);
              [rewrite (proj1 H) by (by eexists)
              |destruct (series_ok r s);
               [by destruct (proj2 H)
               |rewrite ?andb_false_r; reflexivity]];
              cbn [mbind option_bind andb]
          end).
  by eexists.
Qed.

(** X16: a chart sheet of the export has one row per label, holding the
    label and the datum at the same position; where the data run out the
    cell is undefined, and data beyond the last label are left out. *)
Theorem export_series_rows_follow_labels (r chart : value)
  (series labelCol dataCol : string) (labels data : list value) :
  prop r series = Some chart →
  prop chart "labels" = Some (VArr labels) →
  prop chart "data" = Some (VArr data) →
  seriesData r series labelCol dataCol
  = Some (imap (λ i label,
                  row labelCol label dataCol (default VUndef (data !! i)))
               labels).
Proof.
  intros Hchart Hlabels Hdata. unfold seriesData.
  rewrite Hchart. cbn [mbind option_bind]. rewrite Hlabels, Hdata.
  cbn [mbind option_bind]. by apply mapM_imap_Some.
Qed.

Lemma export_series_rows_follow_labels_witness :
  seriesData sample_result "outcomeDistributionData" "Outcome" "Count"
  = Some [row "Outcome" (VStr "Wins") "Count" (VNum (Fin 1));
          row "Outcome" (VStr "Losses") "Count" (VNum (Fin 1));
          row "Outcome" (VStr "Breakeven") "Count" (VNum (Fin 1))].
Proof.
  apply (export_series_rows_follow_labels sample_result
           (VObj (list_to_map
                    [("labels", VArr [VStr "Wins"; VStr "Losses";
                                      VStr "Breakeven"]);
                     ("data", VArr [VNum (Fin 1); VNum (Fin 1);
                                    VNum (Fin 1)])]))
           "outcomeDistributionData" "Outcome" "Count"
           [VStr "Wins"; VStr "Losses"; VStr "Breakeven"]
           [VNum (Fin 1); VNum (Fin 1); VNum (Fin 1)]);
    reflexivity.
Defined.

(** X17: the two buttons are enabled only where the guards of their
    handlers let the click through: with the export button enabled the
    export never alerts, and with the analysis button enabled the analysis
    does not refuse for want of trades and finds the busy flag lowered. *)
Theorem enabled_buttons_pass_the_guards (reply : Reply) (st : State) :
  (exportButtonDisabled st = false → ∀ msg, Alert msg ∉ handleDownload st)
  ∧ (analysisButtonDisabled st = false →
     loading st = false
     ∧ Alert "Please add at least 3 trades to run AI analysis."
         ∉ (runAiAnalysis reply st).2).
Proof.
  split.
  - unfold exportButtonDisabled, handleDownload. intros Hen msg Hin.
    destruct (truthy (analysisResult st)); [|discriminate Hen].
    destruct (workbook st); by elem_cases Hin.
  - unfold analysisButtonDisabled, runAiAnalysis. intros Hen.
    apply orb_false_iff in Hen as [Hload Hlen]. rewrite Hlen.
    split; [done|]. intros Hin.
    destruct (tradesAsText (trades st)); [destruct reply|];
      by elem_cases Hin.
Qed.

Lemma enabled_buttons_pass_the_guards_witness :
  exportButtonDisabled analysed = false
  ∧ ∀ msg, Alert msg ∉ handleDownload analysed.
Proof.
  split; [reflexivity|].
  apply (proj1 (enabled_buttons_pass_the_guards CallFails analysed)).
  reflexivity.
Defined.

(** ** The list of trades *)

Lemma run_keyed (ops : list Op) : ∀ st,
  Forall keyed (trades st) → Forall keyed (trades (run ops st)).
Proof.
  induction ops as [|op ops IH]; intros st Hst; [done|].
  change (run (op :: ops) st) with (run ops (step st op)). apply IH.
  destruct op as [today form now|excelJson reply now]; unfold step.
  - rewrite trades_handleSubmit. destruct (accepted form); [|done].
    rewrite trades_addTrade. apply Forall_app. split; [done|].
    apply Forall_singleton. eexists. apply trade_id_insert.
  - rewrite trades_runAiImport.
    destruct excelJson as [[|r rows]|]; [done| |done].
    destruct reply as [| |[| | | | |[|x l]|]]; try done.
    apply Forall_app. split; [done|]. apply Forall_lookup. intros i t Hi.
    apply newTradesWithIds_lookup in Hi as [_ Hid]. by eexists.
Qed.

Lemma list_items (ts : list value) :
  Forall keyed ts →
  ∃ items,
    mapM (λ trade, key ← prop trade "id"; Some (key, trade)) ts = Some items
    ∧ items.*2 = ts
    ∧ Forall (λ item, prop item.2 "id" = Some item.1) items.
Proof.
  induction 1 as [|t ts [s Hs] _ (items & Hitems & Hsnd & Hkeys)].
  - by exists [].
  - exists ((VStr s, t) :: items). cbn [mapM]. rewrite Hs, Hitems.
    split_and!; [reflexivity|by rewrite fmap_cons, Hsnd|by constructor].
Qed.

(** X18: the list of a journal made by form submissions and imports always
    renders: it is the empty state when there is no trade, and otherwise
    one item per trade, the newest first, each keyed by the id of its
    trade. *)
Theorem trade_list_shows_newest_first (ops : list Op) :
  let ts := trades (run ops initialState) in
  (ts = [] ∧ TradeList ts = Some EmptyState)
  ∨ ∃ items,
      TradeList ts = Some (Items items)
      ∧ items.*2 = reverse ts
      ∧ Forall (λ item, prop item.2 "id" = Some item.1) items.
Proof.
  cbv zeta.
  pose proof (run_keyed ops initialState (Forall_nil_2 _)) as Hkeyed.
  destruct (trades (run ops initialState)) as [|t ts] eqn:E; [by left|].
  right. rewrite <- E in *. apply Forall_reverse in Hkeyed.
  destruct (list_items _ Hkeyed) as (items & Hitems & Hsnd & Hkeys).
  exists items. split_and!; [|done..].
  rewrite E at 1. unfold TradeList. rewrite <- E, Hitems. reflexivity.
Qed.

(** X19: after an accepted submission the new trade is the first item of
    the list, keyed by the clock reading, and the items shown before follow
    it unchanged. *)
Theorem submitted_trade_heads_the_list (today : string) (form : Form.t)
  (now : Z) (st : State) (shown : Listing) :
  accepted form = true →
  TradeList (trades st) = Some shown →
  ∃ t,
    trades (handleSubmit today form now st).1.1 = trades st ++ [t]
    ∧ TradeList (trades (handleSubmit today form now st).1.1)
      = Some (Items ((VStr (pretty now), t)
                       :: match shown with
                          | EmptyState => []
                          | Items items => items
                          end)).
Proof.
  intros Hacc Hshown. rewrite trades_handleSubmit, Hacc, trades_addTrade.
  eexists. split; [reflexivity|].
  destruct (trades st) as [|t0 ts] eqn:E.
  - injection Hshown as <-. cbn [app]. unfold TradeList.
    rewrite reverse_singleton. cbn [mapM]. rewrite (trade_id_insert _ _ : prop _ "id" = _).
    reflexivity.
  - unfold TradeList in Hshown |- *. rewrite <- E in *.
    destruct (trades st ++ [_]) as [|? ?] eqn:E'; [by destruct (trades st)|].
    rewrite <- E', reverse_snoc. cbn [mapM]. rewrite (trade_id_insert _ _ : prop _ "id" = _).
    cbn [mbind option_bind].
    destruct (mapM _ (reverse (trades st))) as [items|]; [|done].
    by injection Hshown as <-.
Qed.

Lemma submitted_trade_heads_the_list_witness :
  accepted sample_form = true
  ∧ TradeList (trades initialState) = Some EmptyState
  ∧ ∃ t,
      trades (handleSubmit "2024-01-01" sample_form noon initialState).1.1
      = trades initialState ++ [t]
      ∧ TradeList
          (trades (handleSubmit "2024-01-01" sample_form noon initialState).1.1)
        = Some (Items [(VStr (pretty noon), t)]).
Proof.
  split_and!; [reflexivity..|].
  apply (submitted_trade_heads_the_list "2024-01-01" sample_form noon
           initialState EmptyState); reflexivity.
Defined.

(** ** The dashboard and the charts *)

Lemma prop_is_Some (v : value) (k : string) :
  nullish v = false → ∃ x, prop v k = Some x.
Proof. destruct v; try discriminate; by eexists. Qed.

Lemma truthy_not_nullish (v : value) : truthy v = true → nullish v = false.
Proof. by destruct v. Qed.

Lemma MetricsGrid_Some (metrics : value)
  (cards : list (string * CardValue * string)) :
  MetricsGrid metrics = Some cards →
  nullish metrics = false ∧ length cards = 8
  ∧ ∃ totalTrades, prop metrics "totalTrades" = Some totalTrades
                   ∧ is_Some (toString totalTrades).
Proof.
  unfold MetricsGrid. intros H.
  destruct (nullish metrics) eqn:E.
  { apply (prop_nullish _ "totalNetPnl") in E. by rewrite E in H. }
  split; [done|].
  repeat (match type of H with
          | (?m ≫= _) = Some _ =>
              let E := fresh "E" in
              destruct m eqn:E; [cbn [mbind option_bind] in H|discriminate H]
          end).
  injection H as <-. split; [reflexivity|]. by eexists.
Qed.

(** X20: the dashboard throws while rendering when the result on display
    has no metrics, or metrics whose [totalTrades] is missing or null; when
    it does render its eight cards, the export has its summary sheet. *)
Theorem dashboard_needs_total_trades (st : State) :
  truthy (analysisResult st) = true →
  (∀ metrics totalTrades,
     prop (analysisResult st) "metrics" = Some metrics →
     prop metrics "totalTrades" = Some totalTrades →
     nullish totalTrades = true →
     dashboard st = None)
  ∧ (∀ metrics,
       prop (analysisResult st) "metrics" = Some metrics →
       nullish metrics = true →
       dashboard st = None)
  ∧ (∀ cards, dashboard st = Some (Cards cards) →
       length cards = 8 ∧ is_Some (summaryData (analysisResult st))).
Proof.
  intros Htruthy. unfold dashboard. rewrite Htruthy. split_and!.
  - intros metrics totalTrades Hm Ht Hnull. rewrite Hm.
    cbn [mbind option_bind]. unfold MetricsGrid.
    repeat (match goal with
            | |- context [prop metrics ?k ≫= _] =>
                destruct (prop metrics k) eqn:?;
                [cbn [mbind option_bind]|reflexivity]
            end).
    simplify_eq. by destruct totalTrades.
  - intros metrics Hm Hnull. rewrite Hm. cbn [mbind option_bind].
    unfold MetricsGrid.
    apply (prop_nullish _ "totalNetPnl") in Hnull. by rewrite Hnull.
  - intros cards H.
    destruct (prop (analysisResult st) "metrics") as [metrics|] eqn:Hm;
      [|discriminate H].
    cbn [mbind option_bind] in H.
    destruct (MetricsGrid metrics) as [cards'|] eqn:Hgrid; [|discriminate H].
    injection H as <-.
    apply MetricsGrid_Some in Hgrid as (Hnn & Hlen & _).
    split; [done|]. apply summaryData_is_Some. by rewrite Hm, Hnn.
Qed.

Lemma dashboard_needs_total_trades_witness :
  truthy (analysisResult analysed) = true
  ∧ ∃ cards, dashboard analysed = Some (Cards cards)
             ∧ length cards = 8
             ∧ is_Some (summaryData (analysisResult analysed)).
Proof.
  split; [reflexivity|].
  destruct (dashboard analysed) as [[|cards]|] eqn:E;
    [by vm_compute in E| |by vm_compute in E].
  exists cards. split; [reflexivity|].
  apply (proj2 (proj2 (dashboard_needs_total_trades analysed eq_refl))).
  exact E.
Defined.

Lemma drawSeries_Some (r : value) (series : string) (canvas : bool)
  (config : value → option Chart) :
  (∀ s, truthy s = true → is_Some (config s)) →
  nullish r = false →
  ∃ charts, drawSeries r series canvas config = Some charts
            ∧ length charts ≤ 1
            ∧ ∀ c, c ∈ charts →
                ∃ s, prop r series = Some s ∧ truthy s = true
                     ∧ canvas = true ∧ config s = Some c.
Proof.
  intros Hconfig Hr. unfold drawSeries.
  destruct (prop_is_Some r series Hr) as [s Hs]. rewrite Hs.
  cbn [mbind option_bind].
  destruct (truthy s) eqn:Ht, canvas; cbn [andb];
    try (eexists; split_and!; [reflexivity|simpl; lia|];
         intros c Hc; by elem_cases Hc).
  destruct (Hconfig s Ht) as [c Hc]. rewrite Hc. cbn [mbind option_bind].
  eexists; split_and!; [reflexivity|simpl; lia|].
  intros c' Hc'. elem_cases Hc'. subst c'. by exists s.
Qed.

(** X21: drawing the charts never throws, whatever the shape of the result:
    every series is tested before it is read. At most four charts are
    drawn, none without a result or without the chart library, and a
    doughnut chart always has the three fixed labels. *)
Theorem drawing_charts_never_throws (page : Page) (r : value) :
  ∃ charts,
    drawCharts page r = Some charts
    ∧ length charts ≤ 4
    ∧ (truthy r && chartLibrary page = false → charts = [])
    ∧ ∀ c, c ∈ charts → chartType c = doughnut →
        chartLabels c = VArr [VStr "Wins"; VStr "Losses"; VStr "Breakeven"].
Proof.
  unfold drawCharts.
  destruct (truthy r) eqn:Ht; cbn [andb];
    [|exists []; split_and!; [done|simpl; lia|done|intros c Hc; by elem_cases Hc]].
  destruct (chartLibrary page);
    [|exists []; split_and!; [done|simpl; lia|done|intros c Hc; by elem_cases Hc]].
  apply truthy_not_nullish in Ht.
  assert (∀ s k, truthy s = true → ∃ x, prop s k = Some x) as Hread.
  { intros s k Hs. by apply prop_is_Some, truthy_not_nullish. }
  repeat (match goal with
          | |- context [drawSeries r ?series ?canvas ?config] =>
              let cs := fresh "cs" in
              let Hcs := fresh "Hcs" in
              let Hlen := fresh "Hlen" in
              let Hin := fresh "Hin" in
              destruct (drawSeries_Some r series canvas config)
                as (cs & Hcs & Hlen & Hin);
              [intros s Hs;
               repeat (match goal with
                       | |- context [prop s ?k ≫= _] =>
                           destruct (Hread s k Hs) as [? ->];
                           cbn [mbind option_bind]
                       end); by eexists
              |exact Ht|];
              rewrite Hcs; cbn [mbind option_bind]
          end).
  eexists. split_and!; [reflexivity| |discriminate|].
  - rewrite !length_app. lia.
  - intros c Hc Hkind.
    rewrite !elem_of_app in Hc.
    destruct Hc as [Hc|[Hc|[Hc|Hc]]];
      (match goal with
       | H : ∀ c, c ∈ ?l → _, Hc : _ ∈ ?l |- _ => apply H in Hc
       end);
      destruct Hc as (s & _ & Hs & _ & Hc);
      repeat (match type of Hc with
              | (prop s ?k ≫= _) = Some _ =>
                  let E := fresh "E" in
                  destruct (Hread s k Hs) as [? E]; rewrite E in Hc;
                  cbn [mbind option_bind] in Hc
              end);
      injection Hc as <-; first [discriminate Hkind | reflexivity].
Qed.

Lemma drawing_charts_never_throws_witness :
  ∃ charts,
    drawCharts {| chartLibrary := true; cumulativeCanvas := true;
                  outcomeCanvas := true; sessionCanvas := true;
                  gradeCanvas := true |} sample_result = Some charts
    ∧ length charts ≤ 4.
Proof.
  destruct (drawing_charts_never_throws
              {| chartLibrary := true; cumulativeCanvas := true;
                 outcomeCanvas := true; sessionCanvas := true;
                 gradeCanvas := true |} sample_result)
    as (charts & Hdraw & Hlen & _).
  by exists charts.
Defined.

(** X22: form submissions never change the busy flag; so once an upload of
    an empty sheet has left it raised, the analysis button stays disabled
    however many trades are submitted. *)
Theorem empty_sheet_upload_keeps_analysis_disabled (today : string)
  (inputs : list (Form.t * Z)) (reply : Reply) (now : nat → Z) (st : State) :
  let stuck := (handleFileUpload (Rows []) reply now st).1.1 in
  loading (run (submissions today inputs) st) = loading st
  ∧ analysisButtonDisabled (run (submissions today inputs) stuck) = true.
Proof.
  assert (∀ s, loading (run (submissions today inputs) s) = loading s) as Hkeep.
  { induction inputs as [|[form t] inputs IH]; intros s; [reflexivity|].
    change (run (submissions today ((form, t) :: inputs)) s)
      with (run (submissions today inputs) (step s (Submit today form t))).
    rewrite IH. unfold step, handleSubmit.
    destruct (accepted form); reflexivity. }
  cbv zeta. split; [apply Hkeep|].
  unfold analysisButtonDisabled. rewrite Hkeep. reflexivity.
Qed.
